(** * gdal_convert: file resolution, scale parameters and the conversion loop

  A shallow embedding of [gdal_extras/gdal_convert.py].  The raster library
  (GDAL) and the file system are an injected collaborator, the record
  [World]: what [gdal.Open] and [gdal.GetDriverByName] answer, what kind of
  file-system entry a path names and what [Path.rglob] enumerates; the
  interpreter's [int] on a band string is part of it too.  The
  functions of the module are written in a small monad that records the
  library calls made ([gdal.Open], [gdal.Translate]) and carries Python
  exceptions.

  Pixel values and statistics are IEEE doubles, as in the source; the code
  only moves them around, no arithmetic is done on them.  Strings are byte
  strings; the case-insensitive comparisons of the source are against the
  ASCII literals "native" and ".xml", which only ASCII letters can lower to.
  Paths follow pathlib's pure POSIX flavour. *)

From Stdlib Require Import Floats ZArith Ascii.
From stdpp Require Import base strings list gmap.

Open Scope string_scope.
Open Scope list_scope.
Open Scope Z_scope.

(** ** Python built-ins used by the module *)

Module Py.

Definition chr_lower (c : ascii) : ascii :=
  let n := N_of_ascii c in
  if ((65 <=? n) && (n <=? 90))%N then ascii_of_N (n + 32) else c.

(** [str.lower] *)
Fixpoint lower (s : string) : string :=
  match s with
  | EmptyString => EmptyString
  | String c r => String (chr_lower c) (lower r)
  end.

(** [str.split(sep)] for a one-character separator: never the empty list. *)
Fixpoint split (sep : ascii) (s : string) : list string :=
  match s with
  | EmptyString => [ EmptyString ]
  | String c r =>
      if Ascii.eqb c sep then EmptyString :: split sep r
      else match split sep r with
           | [] => [ String c EmptyString ]
           | x :: xs => String c x :: xs
           end
  end.

(** [sep.join(l)] *)
Fixpoint join (sep : string) (l : list string) : string :=
  match l with
  | [] => EmptyString
  | [x] => x
  | x :: r => x +:+ sep +:+ join sep r
  end.

(** [str.rfind(".")] *)
Fixpoint rfind_dot (s : string) : option nat :=
  match s with
  | EmptyString => None
  | String c r =>
      match rfind_dot r with
      | Some i => Some (S i)
      | None => if Ascii.eqb c "." then Some 0%nat else None
      end
  end.

(** Truth value of a [str]. *)
Definition nonempty (s : string) : bool :=
  match s with EmptyString => false | _ => true end.

(** Truth value of an [Optional[str]]: [None] and the empty string are
    false. *)
Definition truthy (o : option string) : bool :=
  match o with Some s => nonempty s | None => false end.

(** The blanks a decimal literal may be wrapped in: tab to carriage return,
    and the space. *)
Definition is_space (c : ascii) : bool :=
  let n := N_of_ascii c in
  (((9 <=? n) && (n <=? 13)) || (n =? 32))%N.

Definition is_digit (c : ascii) : bool :=
  let n := N_of_ascii c in ((48 <=? n) && (n <=? 57))%N.

Definition digit_val (c : ascii) : Z := Z.of_N (N_of_ascii c) - 48.

Fixpoint lstrip (cs : list ascii) : list ascii :=
  match cs with
  | c :: r => if is_space c then lstrip r else cs
  | [] => []
  end.

Definition strip (cs : list ascii) : list ascii :=
  reverse (lstrip (reverse (lstrip cs))).

(** Decimal digits, single underscores allowed between two digits. *)
Fixpoint int_digits (acc : Z) (after_digit : bool) (cs : list ascii)
  : option Z :=
  match cs with
  | [] => if after_digit then Some acc else None
  | c :: r =>
      if is_digit c then int_digits (10 * acc + digit_val c) true r
      else if Ascii.eqb c "_" && after_digit then int_digits acc false r
      else None
  end.

(** A reader of ASCII decimal literals: blanks around, an optional sign,
    digits with single underscores between them; [None] for anything else.
    It is not the [int()] the module calls, which is the interpreter's (see
    [py_int] below); the examples take it as the interpreter's answer on the
    short ASCII literals they use. *)
Definition decimal (s : string) : option Z :=
  match strip (String.list_ascii_of_string s) with
  | c :: r =>
      if Ascii.eqb c "-" then Z.opp <$> int_digits 0 false r
      else if Ascii.eqb c "+" then int_digits 0 false r
      else int_digits 0 false (c :: r)
  | [] => None
  end.

(** [l[i]] with Python's negative indices; [None] stands for
    [IndexError]. *)
Definition index {A} (l : list A) (i : Z) : option A :=
  let n := Z.of_nat (length l) in
  if (0 <=? i) && (i <? n) then l !! Z.to_nat i
  else if (- n <=? i) && (i <? 0) then l !! Z.to_nat (n + i)
  else None.

(** [list(range(lo, hi))] *)
Definition range (lo hi : Z) : list Z := seqZ lo (hi - lo).

End Py.

(** ** pathlib *)

(** Pure POSIX paths: a root and the list of components.  Empty components
  and "." are dropped when a string is parsed, ".." is kept; exactly two
  leading slashes are a root of their own.  [suffix] and [stem] are those of
  pathlib before Python 3.14: a leading or a trailing dot does not start a
  suffix. *)

Inductive Root := Relative | Slash | DoubleSlash.

Record Path := mkPath { root : Root; parts : list string }.

Module Pathlib.

Definition root_of (s : string) : Root :=
  match s with
  | String "/" (String "/" (String "/" _)) => Slash
  | String "/" (String "/" _) => DoubleSlash
  | String "/" _ => Slash
  | _ => Relative
  end.

Definition keep_part (c : string) : bool :=
  negb (String.eqb c EmptyString) && negb (String.eqb c ".").

(** [Path(s)] *)
Definition of_str (s : string) : Path :=
  {| root := root_of s;
     parts := List.filter keep_part (Py.split "/" s) |}.

(** [str(p)] *)
Definition str (p : Path) : string :=
  match root p, parts p with
  | Relative, [] => "."
  | Relative, ps => Py.join "/" ps
  | Slash, ps => "/" +:+ Py.join "/" ps
  | DoubleSlash, ps => "//" +:+ Py.join "/" ps
  end.

(** [p / q] *)
Definition joinpath (p q : Path) : Path :=
  match root q with
  | Relative => {| root := root p; parts := parts p ++ parts q |}
  | _ => q
  end.

(** [p.parent] *)
Definition parent (p : Path) : Path :=
  {| root := root p; parts := removelast (parts p) |}.

(** [p.name] *)
Definition name (p : Path) : string := List.last (parts p) EmptyString.

Definition suffix_at (nm : string) : option nat :=
  match Py.rfind_dot nm with
  | Some i =>
      if ((0 <? i) && (i <? String.length nm - 1))%nat then Some i else None
  | None => None
  end.

(** [p.suffix] *)
Definition suffix (p : Path) : string :=
  let nm := name p in
  match suffix_at nm with
  | Some i => String.substring i (String.length nm - i) nm
  | None => EmptyString
  end.

(** [p.stem] *)
Definition stem (p : Path) : string :=
  let nm := name p in
  match suffix_at nm with
  | Some i => String.substring 0 i nm
  | None => nm
  end.

End Pathlib.

Notation "p // q" := (Pathlib.joinpath p q) (at level 40, left associativity).


(** ** The raster library and the file system *)

(** [GDALDataType], the pixel types of GDAL 3.1. *)
Inductive GDALDataType :=
| GDT_Unknown | GDT_Byte | GDT_UInt16 | GDT_Int16 | GDT_UInt32 | GDT_Int32
| GDT_Float32 | GDT_Float64 | GDT_CInt16 | GDT_CInt32 | GDT_CFloat32
| GDT_CFloat64.

(** [gdal.GetDataTypeName] *)
Definition GetDataTypeName (t : GDALDataType) : string :=
  match t with
  | GDT_Unknown => "Unknown" | GDT_Byte => "Byte" | GDT_UInt16 => "UInt16"
  | GDT_Int16 => "Int16" | GDT_UInt32 => "UInt32" | GDT_Int32 => "Int32"
  | GDT_Float32 => "Float32" | GDT_Float64 => "Float64"
  | GDT_CInt16 => "CInt16" | GDT_CInt32 => "CInt32"
  | GDT_CFloat32 => "CFloat32" | GDT_CFloat64 => "CFloat64"
  end.

(** What [Band.GetStatistics(True, True)] answers. *)
Record Statistics :=
  mkStats { smin : float; smax : float; smean : float; sstd : float }.

Record Band := mkBand { DataType : GDALDataType; GetStatistics : Statistics }.

(** A driver: its description (short name) and its metadata dictionary. *)
Record Driver :=
  mkDriver { GetDescription : string; GetMetadata_Dict : gmap string string }.

Definition DCAP_RASTER : string := "DCAP_RASTER".

Definition GetMetadataItem (drv : Driver) (key : string) : option string :=
  GetMetadata_Dict drv !! key.

Record Dataset := mkDataset { GetDriver : Driver; bands : list Band }.

Definition RasterCount (ds : Dataset) : Z := Z.of_nat (length (bands ds)).

(** [ds.GetRasterBand(i)], 1-based; [None] outside 1..RasterCount. *)
Definition GetRasterBand (ds : Dataset) (i : Z) : option Band :=
  if 1 <=? i then bands ds !! Z.to_nat (i - 1) else None.

Inductive Kind := Directory | RegularFile | OtherEntry.

(** The environment of a run.  [rglob p] is what [p.rglob("*")] yields: the
    entries below [p], at every depth.  The environment is the one at the
    start of the run: the files a translate call writes are not fed back into
    what later calls see.  [py_int s] is what the interpreter's [int(s)]
    answers on a string, [None] standing for [ValueError]: which digits and
    blanks it reads, and how many digits it puts up with, is the
    interpreter's business. *)
Record World := mkWorld {
  path_kind : Path -> option Kind;
  rglob : Path -> list Path;
  Open : string -> option Dataset;
  GetDriverByName : string -> option Driver;
  py_int : string -> option Z
}.

Definition exists_ (w : World) (p : Path) : bool :=
  match path_kind w p with Some _ => true | None => false end.

Definition is_dir (w : World) (p : Path) : bool :=
  match path_kind w p with Some Directory => true | _ => false end.

Definition is_file (w : World) (p : Path) : bool :=
  match path_kind w p with Some RegularFile => true | _ => false end.

(** [gdal.TranslateOptions(format, outputType, bandList, scaleParams)] *)
Record TranslateOptions := mkOptions {
  format : string;
  outputType : GDALDataType;
  bandList : list Z;
  scaleParams : list (list float)
}.

(** ** Effects: library calls and exceptions *)

Inductive Event :=
| EvOpen (filename : string)
| EvTranslate (destName : string) (srcDS : Dataset) (options : TranslateOptions).

(** Python exceptions; [KeyError] names the dictionary and the missing key,
    [AttributeError] the attribute looked up on [None], [UnboundLocalError]
    the local variable. *)
Inductive Exception :=
| AssertionError (msg : string)
| KeyError (dict key : string)
| AttributeError (attr : string)
| UnboundLocalError (var : string)
| TypeError
| ValueError
| IndexError.

Inductive Result (A : Type) :=
| Ok (a : A)
| Raise (e : Exception).
Arguments Ok {A} a.
Arguments Raise {A} e.

(** A computation: the calls made, in order, and how it ended. *)
Definition M (A : Type) : Type := list Event * Result A.

#[global] Instance M_ret : MRet M := fun A a => ([], Ok a).

#[global] Instance M_bind : MBind M := fun A B f m =>
  match m with
  | (t, Ok a) => let '(t', r) := f a in (t ++ t', r)
  | (t, Raise e) => (t, Raise e)
  end.

Definition raise {A} (e : Exception) : M A := ([], Raise e).

Definition emit (ev : Event) : M unit := ([ev], Ok tt).

Definition trace {A} (m : M A) : list Event := fst m.

Definition outcome {A} (m : M A) : Result A := snd m.

(** [d[key]] on a dictionary named [dict] *)
Definition getitem {A} (dict : string) (d : gmap string A) (key : string)
  : M A :=
  match d !! key with
  | Some v => mret v
  | None => raise (KeyError dict key)
  end.

(** [gdal.Open(filename)] *)
Definition gdal_Open (w : World) (filename : string) : M (option Dataset) :=
  emit (EvOpen filename) ;; mret (Open w filename).

(** [gdal.Translate(destName, srcDS, options)] *)
Definition gdal_Translate (destName : string) (srcDS : Dataset)
  (options : TranslateOptions) : M unit :=
  emit (EvTranslate destName srcDS options).

(** ** The module *)

Definition BITRANGE : gmap string (list float) :=
  list_to_map
    [ ("Byte", [0%float; 255%float]);
      ("UInt8", [0%float; 255%float]);
      ("UInt16", [0%float; 65535%float]);
      ("UInt32", [0%float; 4294967295%float]);
      ("Int16", [(-32768)%float; 32767%float]);
      ("Int32", [(-2147483648)%float; 2147483647%float]);
      ("Float32", [0%float; 1%float]);
      ("Float64", [0%float; 1%float]) ].

Definition TYPE_DICT : gmap string GDALDataType :=
  list_to_map
    [ ("Byte", GDT_Byte);
      ("UInt8", GDT_Byte);
      ("UInt16", GDT_UInt16);
      ("UInt32", GDT_UInt32);
      ("Int16", GDT_Int16);
      ("Int32", GDT_Int32);
      ("Float32", GDT_Float32);
      ("Float64", GDT_Float64) ].

(** The statistics transposed by [zip] and unpacked into four names: with no
    band there is nothing to unpack and the assignment raises [ValueError]. *)
Definition unzip_stats (stats : list Statistics)
  : M (list float * list float * list float * list float) :=
  match stats with
  | [] => raise ValueError
  | _ => mret (smin <$> stats, smax <$> stats, smean <$> stats, sstd <$> stats)
  end.

Definition getScaleParams (ds : Dataset) (outputRange : list float)
  : M (list (list float)) :=
  let stats := GetStatistics <$> bands ds in
  '(vmin, vmax, vmean, vstd) ← unzip_stats stats;
  let scaleParams := zip_with (fun lo hi => [lo; hi]) vmin vmax in
  mret ((fun s => s ++ outputRange) <$> scaleParams).

(** [if not bands: bands = list(range(1, ds.RasterCount + 1))]: an absent and
    an empty band list both stand for all bands. *)
Definition effective_bands (ds : Dataset) (bands : option (list Z)) : list Z :=
  match bands with
  | Some (b :: bs) => b :: bs
  | _ => Py.range 1 (RasterCount ds + 1)
  end.

(** [scaleParams[i - 1]], the body of the list comprehension. *)
Definition select (scaleParams : list (list float)) (i : Z) : M (list float) :=
  match Py.index scaleParams (i - 1) with
  | Some s => mret s
  | None => raise IndexError
  end.

Definition setupOptions (ds : Dataset) (outputFormat outputType : string)
  (outputRange : list float) (bands : option (list Z)) : M TranslateOptions :=
  scaleParams ← getScaleParams ds outputRange;
  let bands := effective_bands ds bands in
  scaleParams ← mapM (select scaleParams) bands;
  code ← getitem "TYPE_DICT" TYPE_DICT outputType;
  mret {| format := outputFormat; outputType := code;
          bandList := bands; scaleParams := scaleParams |}.

Definition get_dtype (w : World) (input : Path) : M string :=
  ds ← gdal_Open w (Pathlib.str input);
  match ds with
  | None => raise (AttributeError "GetRasterBand")
  | Some ds =>
      match GetRasterBand ds 1 with
      | None => raise (AttributeError "DataType")
      | Some band => mret (GetDataTypeName (DataType band))
      end
  end.

(** The first statement of [get_extension]: the driver named by [format],
    or the driver of the input when the format is "Native". *)
Definition resolve_driver (w : World) (input : Path) (format : string)
  : M (option Driver) :=
  if negb (String.eqb (Py.lower format) "native")
  then mret (GetDriverByName w format)
  else ds ← gdal_Open w (Pathlib.str input);
       match ds with
       | None => raise (AttributeError "GetDriver")
       | Some ds => mret (Some (GetDriver ds))
       end.

Definition not_raster_msg (format : string) : string :=
  "Specified output format " +:+ format +:+ " is not a raster format".

Definition get_extension (w : World) (input : Path) (format : string)
  : M string :=
  drv ← resolve_driver w input format;
  match drv with
  | None =>
      raise (AssertionError
               "Invalid Driver. Refer GDAL documentation for accepted list of raster drivers")
  | Some drv =>
      (* [ext] is assigned only under the raster test *)
      let ext : option (option string) :=
        if Py.truthy (GetMetadataItem drv DCAP_RASTER)
        then Some (if String.eqb format "COG" then Some "tif"
                   else GetMetadata_Dict drv !! "DMD_EXTENSION")
        else None in
      match ext with
      | None => raise (UnboundLocalError "ext")
      | Some ext =>
          (* [if not ext]: [None] and the empty string *)
          match ext with
          | Some e =>
              if negb (Py.nonempty e)
              then raise (AssertionError (not_raster_msg format))
              else mret e
          | None => raise (AssertionError (not_raster_msg format))
          end
      end
  end.

(** [outpath / f"{f.stem}_converted.{ext}"] *)
Definition dir_output (outpath f : Path) (ext : string) : Path :=
  outpath // Pathlib.of_str (Pathlib.stem f +:+ "_converted." +:+ ext).

(** The body of [for f in inpath.rglob("*")], over the entries left. *)
Fixpoint parse_dir (w : World) (outpath : Path) (format : string)
  (entries : list Path) : M (list Path * list Path) :=
  match entries with
  | [] => mret ([], [])
  | f :: rest =>
      if String.eqb (Py.lower (Pathlib.suffix f)) ".xml" || is_dir w f
      then parse_dir w outpath format rest
      else
        ext ← get_extension w f format;
        '(files, outpaths) ← parse_dir w outpath format rest;
        mret (f :: files, dir_output outpath f ext :: outpaths)
  end.

Definition parse_files (w : World) (input output : option string)
  (format : string) : M (list Path * list Path) :=
  match input with
  | None => raise TypeError
  | Some input =>
      if negb (exists_ w (Pathlib.of_str input) && negb (String.eqb input EmptyString))
      then raise (AssertionError EmptyString)
      else
        let inpath := Pathlib.of_str input in
        let outpath := if negb (Py.truthy output) then None
                       else Pathlib.of_str <$> output in
        if is_dir w inpath then
          match output with
          | None => raise TypeError
          | Some output =>
              let outpath := Pathlib.of_str output in
              if negb (is_dir w outpath) then raise (AssertionError EmptyString)
              else parse_dir w outpath format (rglob w inpath)
          end
        else if is_file w inpath then
          ext ← get_extension w inpath format;
          let outpaths :=
            match outpath with
            | None => [Pathlib.parent inpath
                         // Pathlib.of_str ("converted." +:+ ext)]
            | Some outpath => [outpath]
            end in
          if negb (negb (String.eqb (Py.lower (Pathlib.suffix inpath)) ".xml"))
          then raise (AssertionError EmptyString)
          else mret ([inpath], outpaths)
        else raise (UnboundLocalError "files")
  end.

(** The command line, as [argparse] hands it over. *)
Record Namespace := mkArgs {
  args_input : option string;
  args_bands : option string;
  args_output : option string;
  args_format : string;
  args_dtype : string;
  args_range : option (float * float)
}.

(** [[int(b) for b in args.bands.split(",")] if args.bands else None] *)
Definition parse_bands (w : World) (bands : option string)
  : M (option (list Z)) :=
  match bands with
  | Some s =>
      if Py.nonempty s
      then l ← mapM (fun b => match py_int w b with
                              | Some i => mret i
                              | None => raise ValueError
                              end) (Py.split "," s);
           mret (Some l)
      else mret None
  | None => mret None
  end.

(** The loop of [main] over the jobs left.  [args.format] and [args.dtype]
    are attributes of the one namespace object, assigned in the loop body:
    they are threaded from one iteration to the next.  [table] is the
    type-to-range dictionary. *)
Fixpoint main_loop (table : gmap string (list float)) (w : World)
  (range : option (float * float)) (bands_out : option (list Z))
  (format dtype : string) (jobs : list (Path * Path)) : M unit :=
  match jobs with
  | [] => mret tt
  | (entry, out) :: rest =>
      ds ← gdal_Open w (Pathlib.str entry);
      format ← (if String.eqb (Py.lower format) "native"
                then match ds with
                     | None => raise (AttributeError "GetDriver")
                     | Some ds => mret (GetDescription (GetDriver ds))
                     end
                else mret format);
      dtype ← (if String.eqb (Py.lower dtype) "native"
               then get_dtype w entry
               else mret dtype);
      outputRange ← match range with
                    | Some (lo, hi) => mret [lo; hi]
                    | None => getitem "BITRANGE" table dtype
                    end;
      match ds with
      | None => raise (AttributeError "RasterCount")
      | Some ds =>
          options ← setupOptions ds format dtype outputRange bands_out;
          gdal_Translate (Pathlib.str out) ds options ;;
          main_loop table w range bands_out format dtype rest
      end
  end.

Definition main_with (table : gmap string (list float)) (w : World)
  (args : Namespace) : M unit :=
  '(files, outfiles) ← parse_files w (args_input args) (args_output args)
                         (args_format args);
  bands_out ← parse_bands w (args_bands args);
  main_loop table w (args_range args) bands_out (args_format args)
    (args_dtype args) (zip files outfiles).

Definition main (w : World) (args : Namespace) : M unit :=
  main_with BITRANGE w args.

(** ** A small environment for the examples *)

Module Fixture.

Definition GTiff : Driver :=
  mkDriver "GTiff"
    (list_to_map [("DCAP_RASTER", "YES"); ("DMD_EXTENSION", "tif")]).

Definition PNG : Driver :=
  mkDriver "PNG"
    (list_to_map [("DCAP_RASTER", "YES"); ("DMD_EXTENSION", "png")]).

(** The COG driver declares no single extension. *)
Definition COG : Driver :=
  mkDriver "COG"
    (list_to_map [("DCAP_RASTER", "YES"); ("DMD_EXTENSIONS", "tif tiff")]).

(** The in-memory driver: raster, no file extension. *)
Definition MEM : Driver :=
  mkDriver "MEM" (list_to_map [("DCAP_RASTER", "YES")]).

(** A vector driver. *)
Definition Shapefile : Driver :=
  mkDriver "ESRI Shapefile"
    (list_to_map [("DCAP_VECTOR", "YES"); ("DMD_EXTENSION", "shp")]).

Definition band (t : GDALDataType) (lo hi : float) : Band :=
  mkBand t (mkStats lo hi 0%float 0%float).

Definition a_tif : Dataset :=
  mkDataset GTiff
    [ band GDT_UInt16 10%float 200%float;
      band GDT_UInt16 20%float 300%float;
      band GDT_UInt16 30%float 400%float;
      band GDT_UInt16 40%float 500%float;
      band GDT_UInt16 50%float 600%float ].

Definition b_png : Dataset :=
  mkDataset PNG [ band GDT_Byte 1%float 250%float ].

Definition c_tif : Dataset :=
  mkDataset GTiff [ band GDT_Byte 0%float 99%float ].

Definition p (s : string) : Path := Pathlib.of_str s.

Definition kinds : list (string * Kind) :=
  [ ("in", Directory); ("in/a.tif", RegularFile); ("in/b.png", RegularFile);
    ("in/a.tif.aux.XML", RegularFile); ("in/sub", Directory);
    ("in/sub/c.tif", RegularFile); ("in/meta.xml", RegularFile);
    ("out", Directory); ("null", OtherEntry) ].

Definition world : World :=
  {| path_kind q :=
       snd <$> List.find (fun e => String.eqb (fst e) (Pathlib.str q)) kinds;
     rglob q :=
       if String.eqb (Pathlib.str q) "in"
       then [ p "in/a.tif"; p "in/a.tif.aux.XML"; p "in/b.png"; p "in/sub";
              p "in/sub/c.tif"; p "in/meta.xml" ]
       else [];
     Open f :=
       if String.eqb f "in/a.tif" then Some a_tif
       else if String.eqb f "in/b.png" then Some b_png
       else if String.eqb f "in/sub/c.tif" then Some c_tif
       else None;
     GetDriverByName n :=
       List.find (fun d => String.eqb (Py.lower (GetDescription d)) (Py.lower n))
         [GTiff; PNG; COG; MEM; Shapefile];
     py_int := Py.decimal |}.

Definition args (i : string) (o : option string) (fmt ty : string)
  (b : option string) (r : option (float * float)) : Namespace :=
  {| args_input := Some i; args_bands := b; args_output := o;
     args_format := fmt; args_dtype := ty; args_range := r |}.

End Fixture.

(** Views of a run used in the statements. *)

(** The [gdal.Translate] calls of a trace, in order. *)
Definition translate_calls (t : list Event)
  : list (string * Dataset * TranslateOptions) :=
  omap (fun ev => match ev with
                  | EvTranslate d s o => Some (d, s, o)
                  | EvOpen _ => None
                  end) t.

Definition is_open (ev : Event) : Prop :=
  match ev with EvOpen _ => True | EvTranslate _ _ _ => False end.

(** [P] holds of the options of every [gdal.Translate] call. *)
Definition on_translate (P : Dataset -> TranslateOptions -> Prop) (ev : Event)
  : Prop :=
  match ev with EvOpen _ => True | EvTranslate _ s o => P s o end.

(** The keys of the two dictionaries. *)
Definition type_names : list string :=
  ["Byte"; "UInt8"; "UInt16"; "UInt32"; "Int16"; "Int32"; "Float32"; "Float64"].

(** The entries [parse_files] keeps of a directory listing. *)
Definition kept (w : World) (f : Path) : bool :=
  negb (String.eqb (Py.lower (Pathlib.suffix f)) ".xml" || is_dir w f).

(** The scale entry of a band for a target range. *)
Definition scale_entry (outputRange : list float) (b : Band) : list float :=
  [smin (GetStatistics b); smax (GetStatistics b)] ++ outputRange.
(** The pixel types the type table has a name for. *)
Definition in_type_table (t : GDALDataType) : bool :=
  match t with
  | GDT_Byte | GDT_UInt16 | GDT_Int16 | GDT_UInt32 | GDT_Int32
  | GDT_Float32 | GDT_Float64 => true
  | _ => false
  end.

(** An index [scaleParams[i - 1]] accepts on a list of [n] entries. *)
Definition index_ok (n i : Z) : Prop := - n < i <= n.

(** The [gdal.Translate] calls of a trace, in order: destination and source
    dataset. *)
Definition issued (t : list Event) : list (string * option Dataset) :=
  (fun c => (c.1.1, Some c.1.2)) <$> translate_calls t.

(** What the jobs ask for: the output path of each job and the dataset its
    input opens as. *)
Definition planned (w : World) (jobs : list (Path * Path))
  : list (string * option Dataset) :=
  (fun j => (Pathlib.str j.2, Open w (Pathlib.str j.1))) <$> jobs.

(** An environment with one complex-valued raster. *)
Module Radar.

Definition sar : Dataset :=
  mkDataset Fixture.GTiff
    [ mkBand GDT_CFloat32 (mkStats 0%float 1%float 0%float 0%float) ].

Definition world : World :=
  {| path_kind q :=
       if String.eqb (Pathlib.str q) "sar.tif" then Some RegularFile else None;
     rglob q := [];
     Open f := if String.eqb f "sar.tif" then Some sar else None;
     GetDriverByName n := None;
     py_int := Py.decimal |}.

End Radar.

(** The file names of the [gdal.Open] calls of a trace, in order. *)
Definition opened (t : list Event) : list string :=
  omap (fun ev => match ev with
                  | EvOpen f => Some f
                  | EvTranslate _ _ _ => None
                  end) t.

(** No "/" in a string. *)
Fixpoint no_slash (s : string) : bool :=
  match s with
  | EmptyString => true
  | String c r => negb (Ascii.eqb c "/") && no_slash r
  end.

Example lower_Native : Py.lower "Native" = "native".
Proof. reflexivity. Qed.

Example split_bands : Py.split "," "5,3,2" = ["5"; "3"; "2"].
Proof. reflexivity. Qed.

Example decimal_examples :
  Py.decimal " 12 " = Some 12 /\ Py.decimal "-3" = Some (-3)
  /\ Py.decimal "1_0" = Some 10 /\ Py.decimal EmptyString = None
  /\ Py.decimal "1__0" = None /\ Py.decimal "3a" = None
  /\ Py.decimal (String (ascii_of_nat 31) "2") = None.
Proof. repeat split; reflexivity. Qed.

Example index_examples :
  Py.index [10; 20; 30] 0 = Some 10 /\ Py.index [10; 20; 30] (-1) = Some 30
  /\ Py.index [10; 20; 30] 3 = None /\ Py.index [10; 20; 30] (-4) = None.
Proof. repeat split; reflexivity. Qed.

Example path_examples :
  Pathlib.str (Pathlib.parent (Pathlib.of_str "./data/in/a.tif")) = "data/in"
  /\ Pathlib.suffix (Pathlib.of_str "data/in/a.aux.XML") = ".XML"
  /\ Pathlib.stem (Pathlib.of_str "data/in/a.aux.xml") = "a.aux"
  /\ Pathlib.suffix (Pathlib.of_str ".hidden") = EmptyString
  /\ Pathlib.str (Pathlib.of_str EmptyString) = "."
  /\ Pathlib.str (Pathlib.of_str "out/" // Pathlib.of_str "a_converted.tif")
     = "out/a_converted.tif".
Proof. repeat split; reflexivity. Qed.

(** Closed (non-)membership goals, by evaluation. *)
Ltac by_decide :=
  match goal with
  | |- ?P => let H := fresh in
             assert (H : bool_decide P = true) by (vm_compute; reflexivity);
             exact (bool_decide_eq_true_1 P H)
  end.

(** ** The monad *)

Section Monad.
Context {A B : Type}.
Implicit Types (m : M A) (f : A -> M B).

Lemma bind_Ok t a f : (t, Ok a) ≫= f = (t ++ trace (f a), outcome (f a)).
Proof. unfold mbind, M_bind, trace, outcome. by destruct (f a). Qed.

Lemma bind_Raise t e f : (t, Raise e) ≫= f = (t, Raise e).
Proof. reflexivity. Qed.

Lemma bind_ret a f : mret a ≫= f = f a.
Proof. unfold mret, M_ret. rewrite bind_Ok. by destruct (f a). Qed.

Lemma bind_pure a f : ([], Ok a) ≫= f = f a.
Proof. apply bind_ret. Qed.

Lemma bind_raise e f : raise e ≫= f = raise e.
Proof. reflexivity. Qed.

Lemma trace_bind m f :
  trace (m ≫= f) =
  match outcome m with
  | Ok a => trace m ++ trace (f a)
  | Raise _ => trace m
  end.
Proof. destruct m as [t [a|e]]; [by rewrite bind_Ok | done]. Qed.

Lemma outcome_bind m f :
  outcome (m ≫= f) =
  match outcome m with
  | Ok a => outcome (f a)
  | Raise e => Raise e
  end.
Proof. destruct m as [t [a|e]]; [by rewrite bind_Ok | done]. Qed.

Lemma Forall_trace_bind (P : Event -> Prop) m f :
  Forall P (trace m) ->
  (forall a, outcome m = Ok a -> Forall P (trace (f a))) ->
  Forall P (trace (m ≫= f)).
Proof.
  intros Hm Hf. rewrite trace_bind.
  destruct (outcome m) as [a|e] eqn:E; [|done].
  apply Forall_app; split; [done | by apply Hf].
Qed.

End Monad.

Lemma M_eta {A} (m : M A) : m = (trace m, outcome m).
Proof. by destruct m. Qed.

(** ** Scale parameters *)

Lemma zip_min_max (stats : list Statistics) :
  zip_with (fun lo hi => [lo; hi]) (smin <$> stats) (smax <$> stats)
  = (fun s => [smin s; smax s]) <$> stats.
Proof. induction stats as [|s stats IH]; [done|]. cbn. by rewrite IH. Qed.

(** With at least one band the builder returns one entry per band, in band
    order. *)
Lemma getScaleParams_Ok (ds : Dataset) (outputRange : list float) :
  bands ds <> [] ->
  getScaleParams ds outputRange = ([], Ok (scale_entry outputRange <$> bands ds)).
Proof.
  intros Hne. unfold getScaleParams, unzip_stats.
  destruct (bands ds) as [|b bs] eqn:E; [done|].
  rewrite fmap_cons, bind_ret. cbn beta iota.
  rewrite <- !fmap_cons, zip_min_max, <- !list_fmap_compose.
  reflexivity.
Qed.

(** With no band the unpacking of the transposed statistics fails. *)
Lemma getScaleParams_no_band (ds : Dataset) (outputRange : list float) :
  bands ds = [] -> getScaleParams ds outputRange = ([], Raise ValueError).
Proof. intros E. unfold getScaleParams. by rewrite E. Qed.

Lemma getScaleParams_trace (ds : Dataset) (outputRange : list float) :
  trace (getScaleParams ds outputRange) = [].
Proof.
  destruct (bands ds) as [|b bs] eqn:E.
  - by rewrite getScaleParams_no_band.
  - rewrite getScaleParams_Ok; [done | by rewrite E].
Qed.

Lemma getScaleParams_inv (ds : Dataset) (outputRange : list float) sp :
  outcome (getScaleParams ds outputRange) = Ok sp ->
  bands ds <> [] /\ sp = scale_entry outputRange <$> bands ds.
Proof.
  destruct (bands ds) as [|b bs] eqn:E.
  - by rewrite getScaleParams_no_band.
  - rewrite getScaleParams_Ok by (by rewrite E). rewrite E. cbn.
    intros [= <-]. done.
Qed.

(** C3. For every open dataset and target range [lo, hi], the
    scale-parameter builder returns a list with one entry per band, and the
    entry of each band is the 4-tuple (that band's observed minimum, that
    band's observed maximum, lo, hi).  In particular, with the range the
    table gives for "Byte", a band observed on [10, 200] gets
    (10, 200, 0, 255). *)
Theorem getScaleParams_per_band (ds : Dataset) (lo hi : float) (i : nat)
  (b : Band) :
  bands ds !! i = Some b ->
  (exists sp,
      getScaleParams ds [lo; hi] = ([], Ok sp)
      /\ length sp = length (bands ds)
      /\ sp !! i
         = Some [smin (GetStatistics b); smax (GetStatistics b); lo; hi])
  /\ (smin (GetStatistics b) = 10%float ->
      smax (GetStatistics b) = 200%float ->
      exists sp,
        (outputRange ← getitem "BITRANGE" BITRANGE "Byte";
         getScaleParams ds outputRange) = ([], Ok sp)
        /\ sp !! i = Some [10%float; 200%float; 0%float; 255%float]).
Proof.
  intros Hb.
  assert (Hne : bands ds <> []) by (intros E; by rewrite E in Hb).
  split.
  - exists (scale_entry [lo; hi] <$> bands ds). split; [by apply getScaleParams_Ok|].
    split; [by rewrite length_fmap|].
    by rewrite list_lookup_fmap, Hb.
  - intros Hmin Hmax. exists (scale_entry [0%float; 255%float] <$> bands ds).
    split.
    + change (getitem "BITRANGE" BITRANGE "Byte")
        with (mret (M := M) [0%float; 255%float]).
      rewrite bind_ret. by apply getScaleParams_Ok.
    + rewrite list_lookup_fmap, Hb. cbn. unfold scale_entry.
      by rewrite Hmin, Hmax.
Qed.

Lemma getScaleParams_per_band_witness :
  exists sp,
    getScaleParams Fixture.a_tif [0%float; 1000%float] = ([], Ok sp)
    /\ length sp = 5%nat
    /\ sp !! 2%nat = Some [30%float; 400%float; 0%float; 1000%float].
Proof.
  apply (getScaleParams_per_band Fixture.a_tif 0%float 1000%float 2
           (Fixture.band GDT_UInt16 30%float 400%float)).
  reflexivity.
Defined.

(** ** Option setup *)

Lemma mapM_cons {A B} (f : A -> M B) (x : A) (l : list A) :
  mapM f (x :: l) = y ← f x; k ← mapM f l; mret (y :: k).
Proof. reflexivity. Qed.

Lemma mapM_trace_nil {A B} (f : A -> M B) (l : list A) :
  (forall x, trace (f x) = []) -> trace (mapM f l) = [].
Proof.
  intros Hf. induction l as [|x l IH]; [done|].
  rewrite mapM_cons, trace_bind, Hf.
  destruct (outcome (f x)); [|done].
  rewrite trace_bind, IH. by destruct (outcome (mapM f l)).
Qed.

Lemma mapM_select_Ok (sp : list (list float)) (l : list Z) (out : list (list float)) :
  Forall2 (fun i s => Py.index sp (i - 1) = Some s) l out ->
  mapM (select sp) l = ([], Ok out).
Proof.
  induction 1 as [|i s l out Hi _ IH]; [done|].
  assert (select sp i = mret s) as Hs by (unfold select; by rewrite Hi).
  by rewrite mapM_cons, Hs, bind_ret, IH.
Qed.

Lemma mapM_select_inv (sp : list (list float)) (l : list Z) (out : list (list float)) :
  outcome (mapM (select sp) l) = Ok out ->
  Forall2 (fun i s => Py.index sp (i - 1) = Some s) l out.
Proof.
  revert out. induction l as [|i l IH]; intros out.
  - intros [= <-]. constructor.
  - rewrite mapM_cons, outcome_bind.
    assert (Hs : forall s, Py.index sp (i - 1) = Some s -> select sp i = mret s)
      by (intros s Hs; unfold select; by rewrite Hs).
    destruct (Py.index sp (i - 1)) as [s|] eqn:Hi;
      [rewrite (Hs s eq_refl) | by unfold select; rewrite Hi].
    cbn. rewrite outcome_bind.
    destruct (outcome (mapM (select sp) l)) as [k|] eqn:Hk; [|done].
    cbn. intros [= <-]. constructor; [done | by apply IH].
Qed.

Lemma setupOptions_unfold ds fmt ty rng bs :
  setupOptions ds fmt ty rng bs =
  sp ← getScaleParams ds rng;
  sel ← mapM (select sp) (effective_bands ds bs);
  code ← getitem "TYPE_DICT" TYPE_DICT ty;
  mret (mkOptions fmt code (effective_bands ds bs) sel).
Proof. reflexivity. Qed.

Lemma getitem_trace {A} dict (d : gmap string A) key :
  trace (getitem dict d key) = [].
Proof. unfold getitem. by destruct (d !! key). Qed.

Lemma setupOptions_trace ds fmt ty rng bs :
  trace (setupOptions ds fmt ty rng bs) = [].
Proof.
  rewrite setupOptions_unfold, trace_bind, getScaleParams_trace.
  destruct (outcome (getScaleParams ds rng)) as [sp|]; [|done].
  rewrite trace_bind, mapM_trace_nil.
  2:{ intros x. unfold select. by destruct (Py.index sp (x - 1)). }
  destruct (outcome (mapM _ _)); [|done].
  rewrite trace_bind, getitem_trace.
  by destruct (outcome (getitem _ _ _)).
Qed.

(** What option setup returns when the selection and the type lookup
    succeed. *)
Lemma setupOptions_Ok ds fmt ty code rng bs sel :
  bands ds <> [] ->
  Forall2 (fun i s => Py.index (scale_entry rng <$> bands ds) (i - 1) = Some s)
    (effective_bands ds bs) sel ->
  TYPE_DICT !! ty = Some code ->
  setupOptions ds fmt ty rng bs
  = ([], Ok (mkOptions fmt code (effective_bands ds bs) sel)).
Proof.
  intros Hne Hsel Hty.
  rewrite setupOptions_unfold, getScaleParams_Ok by done.
  rewrite bind_pure, (mapM_select_Ok _ _ _ Hsel), bind_pure.
  unfold getitem. rewrite Hty, bind_ret. reflexivity.
Qed.

(** What a returned option record is made of. *)
Lemma setupOptions_inv ds fmt ty rng bs o :
  outcome (setupOptions ds fmt ty rng bs) = Ok o ->
  bands ds <> []
  /\ format o = fmt
  /\ TYPE_DICT !! ty = Some (outputType o)
  /\ bandList o = effective_bands ds bs
  /\ Forall2 (fun i s => Py.index (scale_entry rng <$> bands ds) (i - 1) = Some s)
       (bandList o) (scaleParams o).
Proof.
  rewrite setupOptions_unfold, outcome_bind.
  destruct (outcome (getScaleParams ds rng)) as [sp|] eqn:Hsp; [|done].
  apply getScaleParams_inv in Hsp as [Hne ->].
  rewrite outcome_bind.
  destruct (outcome (mapM _ _)) as [sel|] eqn:Hsel; [|done].
  apply mapM_select_inv in Hsel.
  rewrite outcome_bind. unfold getitem.
  destruct (TYPE_DICT !! ty) as [code|] eqn:Hty; [|done].
  cbn. intros [= <-]. cbn. done.
Qed.

Lemma index_in_range {A} (l : list A) (i : Z) :
  1 <= i <= Z.of_nat (length l) ->
  Py.index l (i - 1) = l !! Z.to_nat (i - 1).
Proof.
  intros Hi. unfold Py.index.
  destruct (Z.leb_spec 0 (i - 1)); [|lia].
  destruct (Z.ltb_spec (i - 1) (Z.of_nat (length l))); [done | lia].
Qed.

Lemma index_zero {A} (l : list A) :
  l <> [] -> Py.index l (0 - 1) = last l.
Proof.
  intros Hne. unfold Py.index.
  destruct (Z.leb_spec 0 (0 - 1)); [lia|]. cbn [andb].
  assert (0 < length l)%nat by (destruct l; [done | cbn; lia]).
  destruct (Z.leb_spec (- Z.of_nat (length l)) (0 - 1)); [|lia].
  destruct (Z.ltb_spec (0 - 1) 0); [|lia]. cbn [andb].
  rewrite last_lookup. f_equal. lia.
Qed.

Lemma GetRasterBand_lookup ds i :
  1 <= i -> GetRasterBand ds i = bands ds !! Z.to_nat (i - 1).
Proof. intros Hi. unfold GetRasterBand. by destruct (Z.leb_spec 1 i); [|lia]. Qed.

Lemma select_in_range ds rng i :
  1 <= i <= RasterCount ds ->
  exists b, GetRasterBand ds i = Some b
            /\ Py.index (scale_entry rng <$> bands ds) (i - 1)
               = Some (scale_entry rng b).
Proof.
  intros Hi. unfold RasterCount in Hi.
  destruct (lookup_lt_is_Some_2 (bands ds) (Z.to_nat (i - 1))) as [b Hb]; [lia|].
  exists b. split.
  - rewrite GetRasterBand_lookup by lia. done.
  - rewrite index_in_range by (rewrite length_fmap; lia).
    by rewrite list_lookup_fmap, Hb.
Qed.

Lemma select_zero ds rng b :
  last (bands ds) = Some b ->
  Py.index (scale_entry rng <$> bands ds) (0 - 1) = Some (scale_entry rng b).
Proof.
  intros Hb. rewrite index_zero.
  - by rewrite fmap_last, Hb.
  - intros E. apply fmap_nil_inv in E. by rewrite E in Hb.
Qed.

Lemma selection_exists ds rng (req : list Z) :
  bands ds <> [] ->
  Forall (fun i => 0 <= i <= RasterCount ds) req ->
  exists sel,
    Forall2 (fun i s => Py.index (scale_entry rng <$> bands ds) (i - 1) = Some s)
      req sel.
Proof.
  intros Hne. induction 1 as [|i req Hi _ [sel IH]]; [by exists []|].
  destruct (decide (i = 0)) as [->|Hnz].
  - destruct (last (bands ds)) as [b|] eqn:Hb.
    + exists (scale_entry rng b :: sel). constructor; [by apply select_zero | done].
    + by apply last_None in Hb.
  - destruct (select_in_range ds rng i) as (b & _ & Hb); [lia|].
    exists (scale_entry rng b :: sel). by constructor.
Qed.

Lemma effective_bands_requested ds (req : list Z) :
  req <> [] -> effective_bands ds (Some req) = req.
Proof. by destruct req. Qed.

(** C2. For every dataset and every requested band subset (1-based indices,
    each between 1 and RasterCount), option setup returns options whose band
    list is the requested list and whose scale specification has exactly one
    entry per requested band, in the order of the request: the entry at
    position k is the tuple of the band requested at position k. *)
Theorem setupOptions_requested_bands (ds : Dataset) (fmt ty : string)
  (code : GDALDataType) (rng : list float) (req : list Z) :
  req <> [] ->
  Forall (fun i => 1 <= i <= RasterCount ds) req ->
  TYPE_DICT !! ty = Some code ->
  exists sel,
    setupOptions ds fmt ty rng (Some req)
    = ([], Ok {| format := fmt; outputType := code;
                 bandList := req; scaleParams := sel |})
    /\ length sel = length req
    /\ forall k i, req !! k = Some i ->
         exists b, GetRasterBand ds i = Some b
                   /\ sel !! k
                      = Some ([smin (GetStatistics b); smax (GetStatistics b)]
                                ++ rng).
Proof.
  intros Hreq Hin Hty.
  assert (Hne : bands ds <> []).
  { destruct req as [|i req]; [done|]. apply Forall_cons in Hin as [Hi _].
    unfold RasterCount in Hi. intros E. rewrite E in Hi. cbn in Hi. lia. }
  destruct (selection_exists ds rng req Hne) as [sel Hsel].
  { eapply Forall_impl; [exact Hin|]. cbn. lia. }
  exists sel. split; [|split].
  - rewrite <- (effective_bands_requested ds req Hreq) at 2.
    apply setupOptions_Ok; [done | by rewrite effective_bands_requested | done].
  - symmetry. by eapply Forall2_length.
  - intros k i Hk.
    destruct (Forall2_lookup_l _ _ _ _ _ Hsel Hk) as (s & Hs & Hidx).
    rewrite Forall_lookup in Hin. specialize (Hin k i Hk).
    destruct (select_in_range ds rng i Hin) as (b & Hb & Hidx').
    exists b. split; [done|]. by rewrite Hs, <- Hidx, Hidx'.
Qed.

(** Bands "3,1" of a 5-band dataset: two entries, band 3 then band 1. *)
Lemma setupOptions_requested_bands_witness :
  exists sel,
    setupOptions Fixture.a_tif "GTiff" "Byte" [0%float; 255%float] (Some [3; 1])
    = ([], Ok {| format := "GTiff"; outputType := GDT_Byte;
                 bandList := [3; 1]; scaleParams := sel |})
    /\ length sel = 2%nat
    /\ forall k i, [3; 1] !! k = Some i ->
         exists b, GetRasterBand Fixture.a_tif i = Some b
                   /\ sel !! k
                      = Some ([smin (GetStatistics b); smax (GetStatistics b)]
                                ++ [0%float; 255%float]).
Proof.
  apply (setupOptions_requested_bands Fixture.a_tif "GTiff" "Byte" GDT_Byte
           [0%float; 255%float] [3; 1]).
  - discriminate.
  - repeat constructor; vm_compute; discriminate.
  - reflexivity.
Defined.

(** The example of the specification, run through the parsing of the band
    string as [main] does it. *)
Example bands_3_1_of_5 :
  (bs ← parse_bands Fixture.world (Some "3,1");
   setupOptions Fixture.a_tif "GTiff" "Byte" [0%float; 255%float] bs)
  = ([], Ok {| format := "GTiff"; outputType := GDT_Byte;
               bandList := [3; 1];
               scaleParams := [ [30%float; 400%float; 0%float; 255%float];
                                [10%float; 200%float; 0%float; 255%float] ] |}).
Proof. reflexivity. Qed.

Lemma split_nonempty (sep : ascii) (s : string) : Py.split sep s <> [].
Proof.
  destruct s as [|c s]; cbn [Py.split]; [done|].
  by destruct (Ascii.eqb c sep), (Py.split sep s).
Qed.

Lemma mapM_length {A B} (f : A -> M B) (l : list A) (out : list B) :
  outcome (mapM f l) = Ok out -> length out = length l.
Proof.
  revert out. induction l as [|x l IH]; intros out.
  - by intros [= <-].
  - rewrite mapM_cons, outcome_bind. destruct (outcome (f x)); [|done].
    rewrite outcome_bind. destruct (outcome (mapM f l)) as [k|]; [|done].
    cbn. intros [= <-]. cbn. by rewrite (IH k).
Qed.

(** The band list [main] hands to option setup is never an empty list. *)
Lemma parse_bands_nonempty (w : World) (s : option string) (l : list Z) :
  outcome (parse_bands w s) = Ok (Some l) -> l <> [].
Proof.
  destruct s as [s|]; [|done]. unfold parse_bands.
  destruct (Py.nonempty s); [|done].
  rewrite outcome_bind.
  destruct (outcome (mapM _ _)) as [k|] eqn:Hk; [|done].
  cbn. intros [= <-] ->. apply mapM_length in Hk.
  by destruct (Py.split "," s) eqn:E; [apply split_nonempty in E|].
Qed.

Lemma parse_bands_trace (w : World) (s : option string) :
  trace (parse_bands w s) = [].
Proof.
  destruct s as [s|]; [|done]. unfold parse_bands.
  destruct (Py.nonempty s); [|done].
  rewrite trace_bind, mapM_trace_nil.
  - by destruct (outcome (mapM _ _)).
  - intros b. by destruct (py_int w b).
Qed.

(** C10. Requested band indices are not checked against 1..RasterCount: a
    request of index 0 does not make option setup raise; the entry it selects
    is the scale tuple of the dataset's last band (index -1 of the scale
    list), and the band list handed on still contains the 0. *)
Theorem setupOptions_band_zero (ds : Dataset) (fmt ty : string)
  (code : GDALDataType) (rng : list float) (req : list Z) (b : Band) :
  last (bands ds) = Some b ->
  TYPE_DICT !! ty = Some code ->
  0 ∈ req ->
  Forall (fun i => 0 <= i <= RasterCount ds) req ->
  exists sel,
    setupOptions ds fmt ty rng (Some req)
    = ([], Ok {| format := fmt; outputType := code;
                 bandList := req; scaleParams := sel |})
    /\ length sel = length req
    /\ forall k, req !! k = Some 0 ->
         sel !! k
         = Some ([smin (GetStatistics b); smax (GetStatistics b)] ++ rng).
Proof.
  intros Hlast Hty Hzero Hin.
  assert (Hne : bands ds <> []) by (intros E; by rewrite E in Hlast).
  assert (Hreq : req <> []) by (intros ->; by apply not_elem_of_nil in Hzero).
  destruct (selection_exists ds rng req Hne Hin) as [sel Hsel].
  exists sel. split; [|split].
  - rewrite <- (effective_bands_requested ds req Hreq) at 2.
    apply setupOptions_Ok; [done | by rewrite effective_bands_requested | done].
  - symmetry. by eapply Forall2_length.
  - intros k Hk.
    destruct (Forall2_lookup_l _ _ _ _ _ Hsel Hk) as (s & Hs & Hidx).
    rewrite (select_zero ds rng b Hlast) in Hidx. rewrite Hs, <- Hidx. done.
Qed.

Lemma setupOptions_band_zero_witness :
  exists sel,
    setupOptions Fixture.a_tif "GTiff" "Byte" [0%float; 255%float] (Some [0; 2])
    = ([], Ok {| format := "GTiff"; outputType := GDT_Byte;
                 bandList := [0; 2]; scaleParams := sel |})
    /\ length sel = 2%nat
    /\ forall k, [0; 2] !! k = Some 0 ->
         sel !! k = Some [50%float; 600%float; 0%float; 255%float].
Proof.
  apply (setupOptions_band_zero Fixture.a_tif "GTiff" "Byte" GDT_Byte
           [0%float; 255%float] [0; 2]
           (Fixture.band GDT_UInt16 50%float 600%float)).
  - reflexivity.
  - reflexivity.
  - by_decide.
  - repeat constructor; vm_compute; discriminate.
Defined.

(** ** Extension resolution *)

Lemma gdal_Open_eq w f : gdal_Open w f = ([EvOpen f], Ok (Open w f)).
Proof. reflexivity. Qed.

Lemma gdal_Open_opens w f : Forall is_open (trace (gdal_Open w f)).
Proof. by repeat constructor. Qed.

Lemma resolve_driver_opens w input fmt :
  Forall is_open (trace (resolve_driver w input fmt)).
Proof.
  unfold resolve_driver. destruct (negb _); [constructor|].
  apply Forall_trace_bind; [apply gdal_Open_opens|].
  intros [ds|] _; constructor.
Qed.

Lemma get_extension_opens w input fmt :
  Forall is_open (trace (get_extension w input fmt)).
Proof.
  unfold get_extension.
  apply Forall_trace_bind; [apply resolve_driver_opens|].
  intros [drv|] _; [|constructor].
  destruct (Py.truthy (GetMetadataItem drv DCAP_RASTER)); [|constructor].
  destruct (if String.eqb fmt "COG" then _ else _) as [e|]; [|constructor].
  destruct (negb (Py.nonempty e)); constructor.
Qed.

(** What a returned extension is: the driver is a raster driver, and the
    extension is "tif" for the format "COG", the driver's [DMD_EXTENSION]
    otherwise; it is never empty. *)
Lemma get_extension_inv w input fmt e :
  outcome (get_extension w input fmt) = Ok e ->
  exists drv,
    outcome (resolve_driver w input fmt) = Ok (Some drv)
    /\ Py.truthy (GetMetadataItem drv DCAP_RASTER) = true
    /\ Py.nonempty e = true
    /\ (if String.eqb fmt "COG" then e = "tif"
        else GetMetadata_Dict drv !! "DMD_EXTENSION" = Some e).
Proof.
  unfold get_extension. rewrite outcome_bind.
  destruct (outcome (resolve_driver w input fmt)) as [[drv|]|]; [|done..].
  destruct (Py.truthy (GetMetadataItem drv DCAP_RASTER)) eqn:Hr; [|done].
  intros H. exists drv. split; [done|]. split; [done|].
  destruct (String.eqb fmt "COG").
  - cbn in H. by injection H as <-.
  - destruct (GetMetadata_Dict drv !! "DMD_EXTENSION") as [e'|]; [|done].
    destruct (Py.nonempty e') eqn:He; [|done]. cbn in H. by injection H as <-.
Qed.

(** A raster driver with an extension (or the format "COG"): the extension
    is returned, after the calls the driver resolution makes. *)
Lemma get_extension_Ok w input fmt drv e :
  outcome (resolve_driver w input fmt) = Ok (Some drv) ->
  Py.truthy (GetMetadataItem drv DCAP_RASTER) = true ->
  Py.nonempty e = true ->
  (if String.eqb fmt "COG" then e = "tif"
   else GetMetadata_Dict drv !! "DMD_EXTENSION" = Some e) ->
  get_extension w input fmt = (trace (resolve_driver w input fmt), Ok e).
Proof.
  intros Hd Hr He Hext. unfold get_extension.
  rewrite (M_eta (resolve_driver w input fmt)) at 1.
  rewrite Hd, bind_Ok, Hr.
  destruct (String.eqb fmt "COG").
  - subst e. cbn. by rewrite app_nil_r.
  - rewrite Hext, He. cbn. by rewrite app_nil_r.
Qed.

(** C8 (amended). Once the driver is resolved: if it does not support raster
    data, extension resolution never returns an extension, whatever the
    format name; if it supports raster data, the format name is not "COG"
    and it declares no (or an empty) extension, extension resolution fails
    with the assertion error "... is not a raster format"; if it supports
    raster data and the format name is "COG", the extension is "tif",
    whatever the driver declares. *)
Theorem get_extension_rejects (w : World) (input : Path) (fmt : string)
  (drv : Driver) :
  outcome (resolve_driver w input fmt) = Ok (Some drv) ->
  (Py.truthy (GetMetadataItem drv DCAP_RASTER) = false ->
   forall e, outcome (get_extension w input fmt) <> Ok e)
  /\ (Py.truthy (GetMetadataItem drv DCAP_RASTER) = true ->
      fmt <> "COG" ->
      Py.truthy (GetMetadata_Dict drv !! "DMD_EXTENSION") = false ->
      outcome (get_extension w input fmt)
      = Raise (AssertionError (not_raster_msg fmt)))
  /\ (Py.truthy (GetMetadataItem drv DCAP_RASTER) = true ->
      fmt = "COG" ->
      outcome (get_extension w input fmt) = Ok "tif").
Proof.
  intros Hd. split; [|split].
  - intros Hr e He. apply get_extension_inv in He as (drv' & Hd' & Hr' & _).
    rewrite Hd in Hd'. injection Hd' as <-. congruence.
  - intros Hr Hfmt Hext. unfold get_extension.
    rewrite outcome_bind, Hd, Hr.
    apply String.eqb_neq in Hfmt. rewrite Hfmt.
    destruct (GetMetadata_Dict drv !! "DMD_EXTENSION") as [e|]; [|done].
    cbn in Hext. by rewrite Hext.
  - intros Hr ->. by rewrite (get_extension_Ok w input "COG" drv "tif").
Qed.

Lemma get_extension_rejects_witness :
  (forall e, outcome (get_extension Fixture.world (Fixture.p "in/a.tif")
                        "ESRI Shapefile") <> Ok e)
  /\ outcome (get_extension Fixture.world (Fixture.p "in/a.tif") "MEM")
     = Raise (AssertionError "Specified output format MEM is not a raster format").
Proof.
  split.
  - apply (get_extension_rejects Fixture.world (Fixture.p "in/a.tif")
             "ESRI Shapefile" Fixture.Shapefile); reflexivity.
  - apply (get_extension_rejects Fixture.world (Fixture.p "in/a.tif")
             "MEM" Fixture.MEM); [reflexivity | reflexivity | discriminate
                                 | reflexivity].
Defined.

(** C8 as stated fails on the format "COG": its driver declares no
    extension, and the resolution returns "tif". *)
Lemma get_extension_COG_counterexample :
  outcome (resolve_driver Fixture.world (Fixture.p "in/a.tif") "COG")
  = Ok (Some Fixture.COG)
  /\ GetMetadata_Dict Fixture.COG !! "DMD_EXTENSION" = None
  /\ get_extension Fixture.world (Fixture.p "in/a.tif") "COG" = ([], Ok "tif").
Proof. repeat split; reflexivity. Qed.

(** A driver without raster support: the exception is the unbound local, not
    the assertion error the message of which names this case. *)
Example get_extension_vector_driver :
  get_extension Fixture.world (Fixture.p "in/a.tif") "ESRI Shapefile"
  = ([], Raise (UnboundLocalError "ext")).
Proof. reflexivity. Qed.

(** ** File resolution *)

Lemma parse_dir_cons w outpath fmt f rest :
  parse_dir w outpath fmt (f :: rest) =
  if kept w f
  then ext ← get_extension w f fmt;
       '(files, outpaths) ← parse_dir w outpath fmt rest;
       mret (f :: files, dir_output outpath f ext :: outpaths)
  else parse_dir w outpath fmt rest.
Proof. cbn [parse_dir]. unfold kept. by destruct (_ || _). Qed.

Lemma parse_dir_opens w outpath fmt entries :
  Forall is_open (trace (parse_dir w outpath fmt entries)).
Proof.
  induction entries as [|f rest IH]; [constructor|].
  rewrite parse_dir_cons. destruct (kept w f); [|done].
  apply Forall_trace_bind; [apply get_extension_opens|]. intros ext _.
  apply Forall_trace_bind; [done|]. intros [files outpaths] _. constructor.
Qed.

(** The directory loop returns the kept entries, in listing order, and their
    output paths in the same positions, when the extension of every kept
    entry resolves. *)
Lemma parse_dir_Ok w outpath fmt entries exts :
  Forall2 (fun f e => outcome (get_extension w f fmt) = Ok e)
    (List.filter (kept w) entries) exts ->
  outcome (parse_dir w outpath fmt entries)
  = Ok (List.filter (kept w) entries,
        zip_with (dir_output outpath) (List.filter (kept w) entries) exts).
Proof.
  revert exts. induction entries as [|f rest IH]; intros exts.
  - cbn. by inversion 1.
  - rewrite parse_dir_cons. cbn [List.filter].
    destruct (kept w f); [|by apply IH].
    intros H. apply Forall2_cons_inv_l in H as (e & exts' & He & Hrest & ->).
    rewrite outcome_bind, He, outcome_bind, (IH exts' Hrest). reflexivity.
Qed.

(** A directory loop that returns has resolved every kept entry. *)
Lemma parse_dir_inv w outpath fmt entries files outpaths :
  outcome (parse_dir w outpath fmt entries) = Ok (files, outpaths) ->
  exists exts,
    Forall2 (fun f e => outcome (get_extension w f fmt) = Ok e)
      (List.filter (kept w) entries) exts.
Proof.
  revert files outpaths. induction entries as [|f rest IH]; intros files outpaths.
  - intros _. exists []. constructor.
  - rewrite parse_dir_cons. cbn [List.filter].
    destruct (kept w f); [|by apply IH].
    rewrite outcome_bind.
    destruct (outcome (get_extension w f fmt)) as [e|] eqn:He; [|done].
    rewrite outcome_bind.
    destruct (outcome (parse_dir w outpath fmt rest)) as [[fs os]|] eqn:Hr; [|done].
    intros _. destruct (IH fs os eq_refl) as [exts Hexts].
    exists (e :: exts). by constructor.
Qed.

Lemma parse_files_directory_unfold w input output fmt :
  input <> EmptyString ->
  is_dir w (Pathlib.of_str input) = true ->
  is_dir w (Pathlib.of_str output) = true ->
  parse_files w (Some input) (Some output) fmt
  = parse_dir w (Pathlib.of_str output) fmt (rglob w (Pathlib.of_str input)).
Proof.
  intros Hin Hd Ho. unfold parse_files.
  assert (exists_ w (Pathlib.of_str input) = true) as ->.
  { unfold is_dir in Hd. unfold exists_.
    by destruct (path_kind w (Pathlib.of_str input)). }
  apply String.eqb_neq in Hin. rewrite Hin. cbn [negb andb].
  by rewrite Hd, Ho.
Qed.

Lemma parse_files_opens w input output fmt :
  Forall is_open (trace (parse_files w input output fmt)).
Proof.
  unfold parse_files. destruct input as [input|]; [|constructor].
  destruct (negb _); [constructor|].
  destruct (is_dir w (Pathlib.of_str input)).
  - destruct output as [output|]; [|constructor].
    destruct (negb _); [constructor | apply parse_dir_opens].
  - destruct (is_file w (Pathlib.of_str input)); [|constructor].
    apply Forall_trace_bind; [apply get_extension_opens|]. intros ext _.
    destruct (negb _); constructor.
Qed.

(** Every file of a returned job list had its extension resolved. *)
Lemma parse_dir_resolved w outpath fmt entries files outpaths :
  outcome (parse_dir w outpath fmt entries) = Ok (files, outpaths) ->
  Forall (fun f => exists e, outcome (get_extension w f fmt) = Ok e) files.
Proof.
  revert files outpaths. induction entries as [|f rest IH]; intros files outpaths.
  - intros [= <- <-]. constructor.
  - rewrite parse_dir_cons. destruct (kept w f); [|by apply IH].
    rewrite outcome_bind.
    destruct (outcome (get_extension w f fmt)) as [e|] eqn:He; [|done].
    rewrite outcome_bind.
    destruct (outcome (parse_dir w outpath fmt rest)) as [[fs os]|] eqn:Hr; [|done].
    intros [= <- <-]. constructor; [by exists e | by eapply IH].
Qed.

Lemma parse_files_resolved w input output fmt files outpaths :
  outcome (parse_files w input output fmt) = Ok (files, outpaths) ->
  Forall (fun f => exists e, outcome (get_extension w f fmt) = Ok e) files.
Proof.
  unfold parse_files. destruct input as [input|]; [|done].
  destruct (negb _); [done|].
  destruct (is_dir w (Pathlib.of_str input)).
  - destruct output as [output|]; [|done].
    destruct (negb _); [done | apply parse_dir_resolved].
  - destruct (is_file w (Pathlib.of_str input)); [|done].
    rewrite outcome_bind.
    destruct (outcome (get_extension w (Pathlib.of_str input) fmt)) as [e|] eqn:He;
      [|done].
    destruct (negb (negb _)); [done|]. intros [= <- <-].
    constructor; [by exists e | constructor].
Qed.

(** With the format "Native" a resolved extension means the file opened. *)
Lemma get_extension_native_opened w f fmt e :
  Py.lower fmt = "native" ->
  outcome (get_extension w f fmt) = Ok e ->
  is_Some (Open w (Pathlib.str f)).
Proof.
  intros Hnat He. apply get_extension_inv in He as (drv & Hd & _).
  unfold resolve_driver in Hd. apply String.eqb_eq in Hnat.
  rewrite Hnat, gdal_Open_eq, bind_Ok in Hd. cbn [negb outcome snd] in Hd.
  by destruct (Open w (Pathlib.str f)).
Qed.

(** C6. For every directory input with an existing output directory, when
    the extension of every kept file resolves, the resolved input list is the
    listing of the input directory (every entry below it, recursively)
    without the directories and without the files whose extension is ".xml"
    in any letter case, in listing order; the output list pairs each, at the
    same position, with <output-dir>/<stem>_converted.<ext>, the extension
    being the one resolved for that file.  A file listed once appears
    once. *)
Theorem parse_files_directory (w : World) (input output fmt : string)
  (exts : list string) :
  input <> EmptyString ->
  is_dir w (Pathlib.of_str input) = true ->
  is_dir w (Pathlib.of_str output) = true ->
  Forall2 (fun f e => outcome (get_extension w f fmt) = Ok e)
    (List.filter (kept w) (rglob w (Pathlib.of_str input))) exts ->
  exists files outpaths,
    outcome (parse_files w (Some input) (Some output) fmt) = Ok (files, outpaths)
    /\ files = List.filter (kept w) (rglob w (Pathlib.of_str input))
    /\ (forall f, f ∈ files <->
                  f ∈ rglob w (Pathlib.of_str input)
                  /\ is_dir w f = false
                  /\ Py.lower (Pathlib.suffix f) <> ".xml")
    /\ (NoDup (rglob w (Pathlib.of_str input)) -> NoDup files)
    /\ length outpaths = length files
    /\ (forall k f, files !! k = Some f ->
          exists e, exts !! k = Some e
                    /\ outcome (get_extension w f fmt) = Ok e
                    /\ outpaths !! k
                       = Some (Pathlib.of_str output
                                 // Pathlib.of_str
                                      (Pathlib.stem f +:+ "_converted." +:+ e))).
Proof.
  intros Hin Hd Ho Hext.
  set (files := List.filter (kept w) (rglob w (Pathlib.of_str input))) in *.
  exists files, (zip_with (dir_output (Pathlib.of_str output)) files exts).
  split; [|split; [done|split; [|split; [|split]]]].
  - rewrite parse_files_directory_unfold by done. by apply parse_dir_Ok.
  - intros f. rewrite !list_elem_of_In. unfold files. rewrite filter_In.
    rewrite <- list_elem_of_In. unfold kept.
    rewrite negb_true_iff, orb_false_iff, String.eqb_neq. tauto.
  - intros Hnd. apply NoDup_ListNoDup. apply List.NoDup_filter.
    by apply NoDup_ListNoDup.
  - rewrite length_zip_with. apply Forall2_length in Hext. lia.
  - intros k f Hk.
    destruct (Forall2_lookup_l _ _ _ _ _ Hext Hk) as (e & He & Hres).
    exists e. split; [done|]. split; [done|].
    rewrite lookup_zip_with, Hk. cbn. by rewrite He.
Qed.

Lemma parse_files_directory_witness :
  exists files outpaths,
    outcome (parse_files Fixture.world (Some "in") (Some "out") "Native")
    = Ok (files, outpaths)
    /\ length outpaths = length files.
Proof.
  destruct (parse_files_directory Fixture.world "in" "out" "Native"
              ["tif"; "png"; "tif"])
    as (files & outpaths & Hres & _ & _ & _ & Hlen & _).
  - discriminate.
  - reflexivity.
  - reflexivity.
  - repeat constructor.
  - exists files, outpaths. split; [exact Hres | exact Hlen].
Defined.

(** The listing of the example directory: the sidecar files and the
    sub-directory are left out, the extension follows each file's driver. *)
Example parse_files_mixed_directory :
  let '(t, r) := parse_files Fixture.world (Some "in") (Some "out") "Native" in
  t = [EvOpen "in/a.tif"; EvOpen "in/b.png"; EvOpen "in/sub/c.tif"]
  /\ match r with
     | Ok (files, outpaths) =>
         Pathlib.str <$> files = ["in/a.tif"; "in/b.png"; "in/sub/c.tif"]
         /\ Pathlib.str <$> outpaths
            = ["out/a_converted.tif"; "out/b_converted.png";
               "out/c_converted.tif"]
     | Raise _ => False
     end.
Proof. vm_compute. repeat split; reflexivity. Qed.

Lemma is_dir_exists w p : is_dir w p = true -> exists_ w p = true.
Proof. unfold is_dir, exists_. by destruct (path_kind w p). Qed.

Lemma is_file_exists w p : is_file w p = true -> exists_ w p = true.
Proof. unfold is_file, exists_. by destruct (path_kind w p). Qed.

Lemma is_file_not_dir w p : is_file w p = true -> is_dir w p = false.
Proof. unfold is_file, is_dir. by destruct (path_kind w p) as [[]|]. Qed.

Lemma main_unfold table w args :
  main_with table w args =
  jobs ← parse_files w (args_input args) (args_output args) (args_format args);
  bands_out ← parse_bands w (args_bands args);
  main_loop table w (args_range args) bands_out (args_format args)
    (args_dtype args) (zip jobs.1 jobs.2).
Proof.
  unfold main_with.
  destruct (parse_files w (args_input args) (args_output args) (args_format args))
    as [t [[files outfiles]|e]]; reflexivity.
Qed.

(** C9. For every directory input, if the output path is absent or does not
    name an existing directory, file resolution fails, and it fails before
    any file is opened: the failing run has made no library call at all,
    and so has the run of [main] on such arguments. *)
Theorem parse_files_directory_needs_output (w : World) (input : string)
  (output : option string) (fmt : string) :
  is_dir w (Pathlib.of_str input) = true ->
  (output = None
   \/ exists o, output = Some o /\ is_dir w (Pathlib.of_str o) = false) ->
  (exists e, parse_files w (Some input) output fmt = ([], Raise e))
  /\ (forall args,
        args_input args = Some input -> args_output args = output ->
        args_format args = fmt ->
        exists e, main w args = ([], Raise e)).
Proof.
  intros Hd Hout.
  assert (Hpf : exists e, parse_files w (Some input) output fmt = ([], Raise e)).
  { unfold parse_files. destruct (negb _); [by eexists|].
    rewrite Hd. destruct Hout as [->|(o & -> & Ho)]; [by eexists|].
    rewrite Ho. by eexists. }
  split; [done|]. intros args Hi Ho Hf. destruct Hpf as [e He].
  exists e. unfold main. rewrite main_unfold, Hi, Ho, Hf, He. reflexivity.
Qed.

Lemma parse_files_directory_needs_output_witness :
  (exists e, parse_files Fixture.world (Some "in") None "GTiff" = ([], Raise e))
  /\ (exists e, parse_files Fixture.world (Some "in") (Some "in/a.tif") "GTiff"
                = ([], Raise e)).
Proof.
  split.
  - apply (parse_files_directory_needs_output Fixture.world "in" None "GTiff");
      [reflexivity | by left].
  - apply (parse_files_directory_needs_output Fixture.world "in"
             (Some "in/a.tif") "GTiff"); [reflexivity|].
    right. exists "in/a.tif". split; reflexivity.
Defined.

(** The two ways the directory branch fails on its output. *)
Example parse_files_directory_failures :
  parse_files Fixture.world (Some "in") None "Native" = ([], Raise TypeError)
  /\ parse_files Fixture.world (Some "in") (Some "nowhere") "Native"
     = ([], Raise (AssertionError EmptyString)).
Proof. split; reflexivity. Qed.

(** C5 (amended). For every single-file input whose extension is not ".xml"
    (in any letter case), with no output path given, and for which the
    extension resolves to [ext], file resolution returns exactly one job:
    the input itself, with the output path <input-parent>/converted.<ext>.
    [ext] is "tif" for the format "COG", and otherwise the extension declared
    by the resolved driver: the driver named by the format, or the input's
    own driver when the format is "Native". *)
Theorem parse_files_single_file (w : World) (input : string)
  (output : option string) (fmt : string) (t : list Event) (ext : string) :
  input <> EmptyString ->
  is_file w (Pathlib.of_str input) = true ->
  Py.truthy output = false ->
  Py.lower (Pathlib.suffix (Pathlib.of_str input)) <> ".xml" ->
  get_extension w (Pathlib.of_str input) fmt = (t, Ok ext) ->
  parse_files w (Some input) output fmt
  = (t, Ok ([Pathlib.of_str input],
            [Pathlib.parent (Pathlib.of_str input)
               // Pathlib.of_str ("converted." +:+ ext)]))
  /\ exists drv,
       outcome (resolve_driver w (Pathlib.of_str input) fmt) = Ok (Some drv)
       /\ (if String.eqb fmt "COG" then ext = "tif"
           else GetMetadata_Dict drv !! "DMD_EXTENSION" = Some ext).
Proof.
  intros Hin Hf Hout Hxml Hext. split.
  - unfold parse_files.
    rewrite (is_file_exists _ _ Hf), (is_file_not_dir _ _ Hf), Hf, Hout, Hext.
    apply String.eqb_neq in Hin, Hxml. rewrite Hin, Hxml. cbn.
    by rewrite app_nil_r.
  - assert (He : outcome (get_extension w (Pathlib.of_str input) fmt) = Ok ext)
      by (by rewrite Hext).
    apply get_extension_inv in He as (drv & Hd & _ & _ & Hdrv). by exists drv.
Qed.

(** A GeoTIFF input with no explicit format and no output:
    [converted.tif] next to it. *)
Lemma parse_files_single_file_witness :
  parse_files Fixture.world (Some "in/a.tif") None "Native"
  = ([EvOpen "in/a.tif"],
     Ok ([Pathlib.of_str "in/a.tif"], [Pathlib.of_str "in/converted.tif"])).
Proof.
  apply (parse_files_single_file Fixture.world "in/a.tif" None "Native"
           [EvOpen "in/a.tif"] "tif").
  - discriminate.
  - reflexivity.
  - reflexivity.
  - discriminate.
  - reflexivity.
Defined.

(** C5 as stated fails on a single ".xml" file: the extension resolves, and
    the assertion on the suffix rejects the input. *)
Lemma parse_files_xml_counterexample :
  is_file Fixture.world (Pathlib.of_str "in/meta.xml") = true
  /\ get_extension Fixture.world (Pathlib.of_str "in/meta.xml") "GTiff"
     = ([], Ok "tif")
  /\ parse_files Fixture.world (Some "in/meta.xml") None "GTiff"
     = ([], Raise (AssertionError EmptyString)).
Proof. repeat split; reflexivity. Qed.

(** ** The conversion loop *)

Lemma bind_ext {A B} (m : M A) (f g : A -> M B) :
  (forall a, outcome m = Ok a -> f a = g a) -> m ≫= f = m ≫= g.
Proof.
  destruct m as [t [a|e]]; [|done]. intros H.
  by rewrite !bind_Ok, (H a eq_refl).
Qed.

Lemma get_dtype_opens w entry : Forall is_open (trace (get_dtype w entry)).
Proof.
  unfold get_dtype. apply Forall_trace_bind; [apply gdal_Open_opens|].
  intros [ds|] _; [|constructor]. destruct (GetRasterBand ds 1); constructor.
Qed.

Lemma index_elem_of {A} (l : list A) (i : Z) (x : A) :
  Py.index l i = Some x -> x ∈ l.
Proof.
  unfold Py.index. destruct (_ && _); [by apply list_elem_of_lookup_2|].
  destruct (_ && _); [by apply list_elem_of_lookup_2 | done].
Qed.

(** Every entry option setup selects is the scale entry of some band of the
    dataset. *)
Lemma setupOptions_entries ds fmt ty rng bs o :
  outcome (setupOptions ds fmt ty rng bs) = Ok o ->
  Forall (fun s => exists b, b ∈ bands ds /\ s = scale_entry rng b)
    (scaleParams o).
Proof.
  intros H. apply setupOptions_inv in H as (_ & _ & _ & _ & Hsel).
  induction Hsel as [|i s l sel Hi _ IH]; constructor; [|done].
  apply index_elem_of, list_elem_of_fmap in Hi as (b & -> & Hb). by exists b.
Qed.

Section LoopInvariant.

Variables (table : gmap string (list float)) (w : World).
Variables (range : option (float * float)) (bands_out : option (list Z)).

(** [Inv] is a property of the two attributes the loop assigns, [P] a
    property of the library calls. *)
Variables (Inv : string -> string -> Prop) (P : Event -> Prop).

Hypothesis P_open : forall f, P (EvOpen f).

Hypothesis Inv_format : forall fmt dty ds,
  Inv fmt dty -> Py.lower fmt = "native" ->
  Inv (GetDescription (GetDriver ds)) dty.

Hypothesis Inv_dtype : forall fmt dty dty',
  Inv fmt dty -> Py.lower dty = "native" -> Inv fmt dty'.

Hypothesis P_translate : forall fmt dty ds rng o dest,
  Inv fmt dty ->
  match range with
  | Some (lo, hi) => rng = [lo; hi]
  | None => table !! dty = Some rng
  end ->
  outcome (setupOptions ds fmt dty rng bands_out) = Ok o ->
  P (EvTranslate dest ds o).

Lemma is_open_P (t : list Event) : Forall is_open t -> Forall P t.
Proof.
  intros H. eapply Forall_impl; [exact H|]. intros [f|d s o]; [auto | done].
Qed.

Lemma main_loop_invariant (jobs : list (Path * Path)) (fmt dty : string) :
  Inv fmt dty ->
  Forall P (trace (main_loop table w range bands_out fmt dty jobs)).
Proof.
  revert fmt dty. induction jobs as [|[entry out] rest IH]; intros fmt dty HI.
  { constructor. }
  cbn [main_loop].
  apply Forall_trace_bind; [apply is_open_P, gdal_Open_opens|]. intros ds _.
  apply Forall_trace_bind.
  { destruct (String.eqb (Py.lower fmt) "native"); [destruct ds|]; constructor. }
  intros fmt' Hfmt.
  assert (HI' : Inv fmt' dty).
  { destruct (String.eqb (Py.lower fmt) "native") eqn:E.
    - destruct ds as [ds|]; [|done]. injection Hfmt as <-.
      apply (Inv_format fmt); [done | by apply String.eqb_eq].
    - by injection Hfmt as <-. }
  apply Forall_trace_bind.
  { destruct (String.eqb (Py.lower dty) "native");
      [apply is_open_P, get_dtype_opens | constructor]. }
  intros dty' Hdty.
  assert (HI'' : Inv fmt' dty').
  { destruct (String.eqb (Py.lower dty) "native") eqn:E.
    - apply (Inv_dtype fmt' dty); [done | by apply String.eqb_eq].
    - by injection Hdty as <-. }
  apply Forall_trace_bind.
  { destruct range as [[lo hi]|]; [constructor|].
    rewrite getitem_trace. constructor. }
  intros rng Hrng. destruct ds as [ds|]; [|constructor].
  apply Forall_trace_bind; [rewrite setupOptions_trace; constructor|].
  intros o Ho.
  apply Forall_trace_bind; [|intros _ _; by apply IH].
  repeat constructor. apply (P_translate fmt' dty' ds rng); [done| |done].
  destruct range as [[lo hi]|].
  - by injection Hrng as <-.
  - unfold getitem in Hrng.
    destruct (table !! dty') as [v|]; [by injection Hrng as <- | done].
Qed.

End LoopInvariant.

Lemma main_trace_Forall (P : Event -> Prop) table w args :
  (forall f, P (EvOpen f)) ->
  (forall bands_out jobs,
      Forall P (trace (main_loop table w (args_range args) bands_out
                         (args_format args) (args_dtype args) jobs))) ->
  Forall P (trace (main_with table w args)).
Proof.
  intros Hopen Hloop. rewrite main_unfold.
  apply Forall_trace_bind.
  { eapply Forall_impl; [apply parse_files_opens|]. intros [f|d s o]; [auto|done]. }
  intros jobs _. apply Forall_trace_bind; [|intros b _; apply Hloop].
  rewrite parse_bands_trace. constructor.
Qed.

(** With an explicit range the loop never reads the type-to-range table. *)
Lemma main_loop_table_irrelevant t1 t2 w lo hi bands_out jobs fmt dty :
  main_loop t1 w (Some (lo, hi)) bands_out fmt dty jobs
  = main_loop t2 w (Some (lo, hi)) bands_out fmt dty jobs.
Proof.
  revert fmt dty. induction jobs as [|[entry out] rest IH]; intros fmt dty; [done|].
  cbn [main_loop].
  apply bind_ext; intros ds _. apply bind_ext; intros fmt' _.
  apply bind_ext; intros dty' _. apply bind_ext; intros rng _.
  destruct ds as [ds|]; [|done].
  apply bind_ext; intros o _. apply bind_ext; intros _ _. apply IH.
Qed.

(** [-or 0 1000] with the types "UInt16" and "Byte": the target half is
    (0, 1000) both times, not the (0, 65535) and (0, 255) of the table. *)
Example explicit_range_0_1000 :
  (fun ty =>
     (fun c => scaleParams c.2)
       <$> translate_calls
             (trace (main Fixture.world
                       (Fixture.args "in/b.png" None "GTiff" ty None
                          (Some (0%float, 1000%float))))))
    <$> ["UInt16"; "Byte"]
  = [ [ [ [1%float; 250%float; 0%float; 1000%float] ] ];
      [ [ [1%float; 250%float; 0%float; 1000%float] ] ] ].
Proof. reflexivity. Qed.

(** The band string of the command line, as [main] hands it on: every
    translate call gets the parsed list as its band list and one scale entry
    per index, the entry of the band of that index. *)
Lemma main_requested_bands (w : World) (args : Namespace) (req : list Z) :
  outcome (parse_bands w (args_bands args)) = Ok (Some req) ->
  Forall
    (on_translate (fun ds o =>
       bandList o = req
       /\ length (scaleParams o) = length req
       /\ forall k i, req !! k = Some i -> 1 <= i <= RasterCount ds ->
            exists b rng, GetRasterBand ds i = Some b
                          /\ scaleParams o !! k = Some (scale_entry rng b)))
    (trace (main w args)).
Proof.
  intros Hreq. pose proof (parse_bands_nonempty _ _ _ Hreq) as Hne.
  unfold main. rewrite main_unfold.
  apply Forall_trace_bind.
  { eapply Forall_impl; [apply parse_files_opens|]. by intros [f|]. }
  intros jobs _. apply Forall_trace_bind.
  { rewrite parse_bands_trace. constructor. }
  intros bs Hbs. rewrite Hreq in Hbs. injection Hbs as <-.
  apply (main_loop_invariant _ _ _ _ (fun _ _ => True)); [done..| |done].
  intros fmt dty ds rng o dest _ _ Ho. cbn.
  apply setupOptions_inv in Ho as (_ & _ & _ & Hbl & Hsel).
  rewrite effective_bands_requested in Hbl by done. rewrite Hbl in Hsel.
  split; [done|]. split; [symmetry; by eapply Forall2_length|].
  intros k i Hk Hi.
  destruct (Forall2_lookup_l _ _ _ _ _ Hsel Hk) as (s & Hs & Hidx).
  destruct (select_in_range ds rng i Hi) as (b & Hb & Hidx').
  exists b, rng. split; [done|]. by rewrite Hs, <- Hidx, Hidx'.
Qed.

(** The keys of the two tables are the eight type names. *)
Lemma TYPE_DICT_unknown ty : ty ∉ type_names -> TYPE_DICT !! ty = None.
Proof. intros H. by apply not_elem_of_list_to_map_1. Qed.

Lemma BITRANGE_unknown ty : ty ∉ type_names -> BITRANGE !! ty = None.
Proof. intros H. by apply not_elem_of_list_to_map_1. Qed.

Lemma setupOptions_unknown_type ds fmt ty rng bs :
  TYPE_DICT !! ty = None ->
  exists e, outcome (setupOptions ds fmt ty rng bs) = Raise e.
Proof.
  intros Hty. destruct (outcome (setupOptions ds fmt ty rng bs)) as [o|e] eqn:E.
  - apply setupOptions_inv in E as (_ & _ & Hcode & _). congruence.
  - by exists e.
Qed.

(** A loop over at least one job does not end well on a type name that
    neither the type table knows nor "native" matches. *)
Lemma main_loop_unknown_type_fails table w range bs fmt dty jobs :
  TYPE_DICT !! dty = None -> Py.lower dty <> "native" -> jobs <> [] ->
  exists e, outcome (main_loop table w range bs fmt dty jobs) = Raise e.
Proof.
  intros Hty Hnat Hjobs. destruct jobs as [|[entry out] rest]; [done|].
  apply String.eqb_neq in Hnat. cbn [main_loop].
  rewrite gdal_Open_eq, bind_Ok, Hnat. cbn [outcome snd].
  rewrite outcome_bind.
  destruct (outcome (if String.eqb (Py.lower fmt) "native" then _ else _))
    as [fmt'|e]; [|by exists e].
  rewrite bind_ret, outcome_bind.
  destruct (outcome match range with Some _ => _ | None => _ end)
    as [rng|e]; [|by exists e].
  destruct (Open w (Pathlib.str entry)) as [ds|]; [|by eexists].
  rewrite outcome_bind.
  destruct (setupOptions_unknown_type ds fmt' dty rng bs Hty) as [e ->].
  by exists e.
Qed.

(** No translate call is ever issued on a type name that neither the type
    table knows nor "native" matches. *)
Lemma no_translate_on_unknown_type w args :
  args_dtype args ∉ type_names ->
  Py.lower (args_dtype args) <> "native" ->
  Forall is_open (trace (main w args)).
Proof.
  intros Hty Hnat. pose proof (TYPE_DICT_unknown _ Hty) as Hcode.
  apply main_trace_Forall; [done|]. intros bs jobs.
  apply (main_loop_invariant _ _ _ _ (fun _ dty => dty = args_dtype args));
    [done | done | | | done].
  - intros fmt dty dty' -> Hl. done.
  - intros fmt dty ds rng o dest -> _ Ho.
    apply setupOptions_inv in Ho as (_ & _ & Ho & _). congruence.
Qed.

(** C7 (amended). Supplying an output pixel-type name that is neither one of
    the eight recognized names nor "native" in any letter case: no translate
    call is ever issued (the run makes [gdal.Open] calls only), and the run
    fails whenever file resolution yields at least one job; when moreover no
    explicit range is given and the band string parses, the failure is the
    lookup of the name in the range table. *)
Theorem unrecognized_dtype_fails (w : World) (args : Namespace)
  (files outfiles : list Path) :
  args_dtype args ∉ type_names ->
  Py.lower (args_dtype args) <> "native" ->
  outcome (parse_files w (args_input args) (args_output args)
             (args_format args)) = Ok (files, outfiles) ->
  zip files outfiles <> [] ->
  Forall is_open (trace (main w args))
  /\ (exists e, outcome (main w args) = Raise e)
  /\ (args_range args = None ->
      (exists bands_out, outcome (parse_bands w (args_bands args)) = Ok bands_out) ->
      outcome (main w args) = Raise (KeyError "BITRANGE" (args_dtype args))).
Proof.
  intros Hty Hnat Hpf Hjobs.
  pose proof (no_translate_on_unknown_type w args Hty Hnat) as Hopen.
  pose proof (TYPE_DICT_unknown _ Hty) as Hcode.
  pose proof (BITRANGE_unknown _ Hty) as Hrange.
  split; [done|]. split.
  - unfold main. rewrite main_unfold, outcome_bind, Hpf, outcome_bind.
    destruct (outcome (parse_bands w (args_bands args))) as [bs|e]; [|by exists e].
    by apply main_loop_unknown_type_fails.
  - intros Hr [bs Hpb].
    apply parse_files_resolved in Hpf as Hres.
    unfold main.
    rewrite main_unfold, outcome_bind, Hpf, outcome_bind, Hpb, Hr.
    cbn [fst snd].
    destruct files as [|entry files]; [done|].
    destruct outfiles as [|out outfiles]; [done|].
    apply Forall_cons in Hres as [[e He] _].
    cbn [zip zip_with main_loop].
    rewrite gdal_Open_eq, bind_Ok. cbn [outcome snd].
    apply String.eqb_neq in Hnat. rewrite Hnat.
    assert (exists fmt',
               (if String.eqb (Py.lower (args_format args)) "native"
                then match Open w (Pathlib.str entry) with
                     | Some ds => mret (GetDescription (GetDriver ds))
                     | None => raise (AttributeError "GetDriver")
                     end
                else mret (args_format args)) = mret (M := M) fmt')
      as [fmt' ->].
    { destruct (String.eqb (Py.lower (args_format args)) "native") eqn:E;
        [|by eexists].
      apply String.eqb_eq in E.
      destruct (get_extension_native_opened _ _ _ _ E He) as [ds ->].
      by eexists. }
    rewrite !bind_ret. unfold getitem. by rewrite Hrange.
Qed.

Lemma unrecognized_dtype_fails_witness :
  Forall is_open
    (trace (main Fixture.world
              (Fixture.args "in/a.tif" None "Native" "uint16" None None)))
  /\ outcome (main Fixture.world
                (Fixture.args "in/a.tif" None "Native" "uint16" None None))
     = Raise (KeyError "BITRANGE" "uint16").
Proof.
  destruct (unrecognized_dtype_fails Fixture.world
              (Fixture.args "in/a.tif" None "Native" "uint16" None None)
              [Pathlib.of_str "in/a.tif"] [Pathlib.of_str "in/converted.tif"])
    as (Hopen & _ & Hkey).
  - by_decide.
  - discriminate.
  - reflexivity.
  - discriminate.
  - split; [exact Hopen|]. apply Hkey; [reflexivity | by eexists].
Defined.

(** C7 as stated fails three times.  "Native" is no recognized name and the
    run ends well, with a translate call.  With an explicit range the failure
    on an unknown name is the lookup in the type-code table, in option setup,
    and the range table is not read.  On a directory without files there is
    no failure at all. *)
Lemma unrecognized_dtype_counterexample :
  ("Native" ∉ type_names)
  /\ outcome (main Fixture.world
                (Fixture.args "in/b.png" None "GTiff" "Native" None None))
     = Ok tt
  /\ length (translate_calls
               (trace (main Fixture.world
                         (Fixture.args "in/b.png" None "GTiff" "Native" None
                            None)))) = 1%nat
  /\ ("Foo" ∉ type_names)
  /\ main Fixture.world
       (Fixture.args "in/b.png" None "GTiff" "Foo" None
          (Some (0%float, 1000%float)))
     = ([EvOpen "in/b.png"], Raise (KeyError "TYPE_DICT" "Foo"))
  /\ main Fixture.world (Fixture.args "out" (Some "out") "GTiff" "Foo" None None)
     = ([], Ok tt).
Proof.
  split; [by_decide|]. split; [reflexivity|]. split; [reflexivity|].
  split; [by_decide|]. split; reflexivity.
Qed.

(** Once the format attribute holds a name other than "native", every later
    translate call of the loop gets that name. *)
Lemma main_loop_format_fixed table w range bs fmt dty jobs :
  Py.lower fmt <> "native" ->
  Forall (on_translate (fun _ o => format o = fmt))
    (trace (main_loop table w range bs fmt dty jobs)).
Proof.
  intros Hfmt.
  apply (main_loop_invariant _ _ _ _ (fun f _ => f = fmt)); [done| |done| |done].
  - by intros f dty0 ds ->.
  - intros f dty0 ds rng o dest -> _ Ho. cbn.
    by apply setupOptions_inv in Ho as (_ & Ho & _).
Qed.

(** With the format "Native", the driver description of the first job's
    dataset is assigned to the format attribute, and every translate call of
    the run gets it: the later jobs are not converted with the description of
    their own dataset. *)
Lemma main_loop_format_of_first_job table w range bs fmt dty entry out rest ds :
  Py.lower fmt = "native" ->
  Open w (Pathlib.str entry) = Some ds ->
  Py.lower (GetDescription (GetDriver ds)) <> "native" ->
  Forall (on_translate (fun _ o => format o = GetDescription (GetDriver ds)))
    (trace (main_loop table w range bs fmt dty ((entry, out) :: rest))).
Proof.
  intros Hfmt Hds Hdesc. cbn [main_loop].
  apply String.eqb_eq in Hfmt.
  rewrite gdal_Open_eq, bind_Ok, Hfmt, Hds, bind_ret. cbn [trace fst].
  apply Forall_app. split; [by repeat constructor|].
  apply Forall_trace_bind.
  { destruct (String.eqb (Py.lower dty) "native"); [|constructor].
    eapply Forall_impl; [apply get_dtype_opens|]. by intros [f|]. }
  intros dty' _. apply Forall_trace_bind.
  { destruct range as [[lo hi]|]; [constructor|].
    rewrite getitem_trace. constructor. }
  intros rng _. apply Forall_trace_bind; [rewrite setupOptions_trace; constructor|].
  intros o Ho. apply setupOptions_inv in Ho as (_ & Ho & _).
  apply Forall_trace_bind; [by repeat constructor|].
  intros _ _. by apply main_loop_format_fixed.
Qed.

(** C1. The claim says that with the format "Native" every file of a
    directory is converted with the driver description of its own dataset.
    On a directory holding a GeoTIFF, a PNG and a second GeoTIFF, each
    translate call is listed with its destination, the driver description of
    its source dataset and the format it is given: the PNG is converted with
    the format "GTiff" of the first file, into a file named ".png". *)
Theorem native_format_mixed_directory :
  (fun c => (c.1.1, GetDescription (GetDriver c.1.2), format c.2))
    <$> translate_calls
          (trace (main Fixture.world
                    (Fixture.args "in" (Some "out") "Native" "Byte" None None)))
  = [ ("out/a_converted.tif", "GTiff", "GTiff");
      ("out/b_converted.png", "PNG", "GTiff");
      ("out/c_converted.tif", "GTiff", "GTiff") ].
Proof. reflexivity. Qed.

(** * Further properties of the module *)

(** ** The two tables *)

(** X1. The range table and the type-code table have the same keys, the
    eight type names, and every range of the table is a pair: a name that
    passes the range lookup passes the type lookup of option setup. *)
Theorem tables_same_keys (ty : string) :
  (ty ∈ type_names <-> is_Some (BITRANGE !! ty))
  /\ (ty ∈ type_names <-> is_Some (TYPE_DICT !! ty))
  /\ (forall rng, BITRANGE !! ty = Some rng -> length rng = 2%nat).
Proof.
  destruct (decide (ty ∈ type_names)) as [Hin|Hout].
  - unfold type_names in Hin.
    repeat (apply elem_of_cons in Hin as [->|Hin];
            [repeat split; intros; try by_decide; try (by eexists);
             match goal with H : _ = Some _ |- _ => by injection H as <- end|]).
    by apply elem_of_nil in Hin.
  - rewrite (BITRANGE_unknown _ Hout), (TYPE_DICT_unknown _ Hout).
    repeat split; try done; by intros [? ?].
Qed.

(** ** Option setup: errors and defaults *)

(** X2. A dataset without any band cannot be set up: option setup raises
    [ValueError], whatever the band request and the type name. *)
Theorem setupOptions_no_band (ds : Dataset) (fmt ty : string)
  (rng : list float) (bs : option (list Z)) :
  bands ds = [] -> setupOptions ds fmt ty rng bs = ([], Raise ValueError).
Proof.
  intros E. unfold setupOptions. by rewrite getScaleParams_no_band.
Qed.

Lemma setupOptions_no_band_witness :
  setupOptions (mkDataset Fixture.GTiff []) "GTiff" "Byte"
    [0%float; 255%float] (Some [1])
  = ([], Raise ValueError).
Proof. apply (setupOptions_no_band (mkDataset Fixture.GTiff [])). reflexivity. Defined.

Lemma all_bands_selected {A} (l : list A) :
  Forall2 (fun i s => Py.index l (i - 1) = Some s)
    (Py.range 1 (Z.of_nat (length l) + 1)) l.
Proof.
  unfold Py.range. replace (Z.of_nat (length l) + 1 - 1) with (Z.of_nat (length l)) by lia.
  apply Forall2_same_length_lookup_2.
  - rewrite length_seqZ. lia.
  - intros k i s Hi Hs. apply lookup_seqZ in Hi as [-> Hk].
    rewrite index_in_range by lia. rewrite <- Hs. f_equal. lia.
Qed.

(** X3. With no band request (absent, or an empty list), on a dataset with
    at least one band and a known type name, option setup selects all bands:
    the band list is 1..RasterCount and the scale specification has the
    entry of every band, in band order. *)
Theorem setupOptions_all_bands (ds : Dataset) (fmt ty : string)
  (code : GDALDataType) (rng : list float) (bs : option (list Z)) :
  bands ds <> [] ->
  bs = None \/ bs = Some [] ->
  TYPE_DICT !! ty = Some code ->
  setupOptions ds fmt ty rng bs
  = ([], Ok {| format := fmt; outputType := code;
               bandList := seqZ 1 (RasterCount ds);
               scaleParams := (fun b => [smin (GetStatistics b);
                                         smax (GetStatistics b)] ++ rng)
                                <$> bands ds |}).
Proof.
  intros Hne Hbs Hty.
  assert (Heff : effective_bands ds bs = seqZ 1 (RasterCount ds)).
  { destruct Hbs as [-> | ->]; cbn; unfold Py.range; f_equal; lia. }
  rewrite <- Heff. apply setupOptions_Ok; [done| |done].
  rewrite Heff. pose proof (all_bands_selected (scale_entry rng <$> bands ds)) as H.
  rewrite length_fmap in H. unfold Py.range in H. unfold RasterCount.
  by replace (Z.of_nat (length (bands ds)) + 1 - 1)
    with (Z.of_nat (length (bands ds))) in H by lia.
Qed.

Lemma setupOptions_all_bands_witness :
  setupOptions Fixture.a_tif "GTiff" "UInt16" [0%float; 65535%float] (Some [])
  = ([], Ok {| format := "GTiff"; outputType := GDT_UInt16;
               bandList := [1; 2; 3; 4; 5];
               scaleParams :=
                 [ [10%float; 200%float; 0%float; 65535%float];
                   [20%float; 300%float; 0%float; 65535%float];
                   [30%float; 400%float; 0%float; 65535%float];
                   [40%float; 500%float; 0%float; 65535%float];
                   [50%float; 600%float; 0%float; 65535%float] ] |}).
Proof.
  apply (setupOptions_all_bands Fixture.a_tif "GTiff" "UInt16" GDT_UInt16
           [0%float; 65535%float] (Some [])).
  - discriminate.
  - by right.
  - reflexivity.
Defined.

Lemma index_out_of_range {A} (l : list A) (i : Z) :
  ~ index_ok (Z.of_nat (length l)) i -> Py.index l (i - 1) = None.
Proof.
  unfold index_ok, Py.index. intros Hi.
  destruct (Z.leb_spec 0 (i - 1)), (Z.ltb_spec (i - 1) (Z.of_nat (length l)));
    cbn [andb]; try lia;
    destruct (Z.leb_spec (- Z.of_nat (length l)) (i - 1)),
             (Z.ltb_spec (i - 1) 0); cbn [andb]; try lia; done.
Qed.

Lemma index_wraps {A} (l : list A) (i : Z) :
  - Z.of_nat (length l) < i <= 0 ->
  Py.index l (i - 1) = l !! Z.to_nat (Z.of_nat (length l) + i - 1).
Proof.
  intros Hi. unfold Py.index.
  destruct (Z.leb_spec 0 (i - 1)); [lia|]. cbn [andb].
  destruct (Z.leb_spec (- Z.of_nat (length l)) (i - 1)); [|lia].
  destruct (Z.ltb_spec (i - 1) 0); [|lia]. cbn [andb]. f_equal. lia.
Qed.

Lemma mapM_select_raise (sp : list (list float)) (l : list Z) :
  Exists (fun i => Py.index sp (i - 1) = None) l ->
  mapM (select sp) l = ([], Raise IndexError).
Proof.
  induction l as [|i l IH]; intros Hex; [by apply Exists_nil in Hex|].
  rewrite mapM_cons.
  destruct (Py.index sp (i - 1)) as [s|] eqn:Hi.
  - assert (select sp i = mret s) as -> by (unfold select; by rewrite Hi).
    apply Exists_cons in Hex as [Hex|Hex]; [congruence|].
    by rewrite bind_ret, (IH Hex).
  - assert (select sp i = raise IndexError) as ->
      by (unfold select; by rewrite Hi).
    done.
Qed.

(** X4. On a dataset with bands, a requested index above RasterCount, or at
    or below -RasterCount, makes option setup raise [IndexError], before the
    type name is looked up. *)
Theorem setupOptions_index_error (ds : Dataset) (fmt ty : string)
  (rng : list float) (req : list Z) :
  bands ds <> [] ->
  Exists (fun i => RasterCount ds < i \/ i <= - RasterCount ds) req ->
  setupOptions ds fmt ty rng (Some req) = ([], Raise IndexError).
Proof.
  intros Hne Hex.
  assert (Hreq : req <> []) by (intros ->; by apply Exists_nil in Hex).
  unfold setupOptions. rewrite getScaleParams_Ok, bind_pure by done.
  rewrite effective_bands_requested by done. cbn zeta.
  rewrite mapM_select_raise; [done|].
  eapply Exists_impl; [exact Hex|]. intros i Hi. cbn beta.
  apply index_out_of_range. rewrite length_fmap. unfold index_ok.
  unfold RasterCount in Hi. lia.
Qed.

Lemma setupOptions_index_error_witness :
  setupOptions Fixture.a_tif "GTiff" "NoSuchType" [0%float; 255%float]
    (Some [2; 6])
  = ([], Raise IndexError).
Proof.
  apply (setupOptions_index_error Fixture.a_tif "GTiff" "NoSuchType"
           [0%float; 255%float] [2; 6]).
  - discriminate.
  - apply Exists_cons_tl, Exists_cons_hd. left. vm_compute. reflexivity.
Defined.

Lemma select_wraps ds rng i :
  - RasterCount ds < i <= 0 ->
  exists b, GetRasterBand ds (RasterCount ds + i) = Some b
            /\ Py.index (scale_entry rng <$> bands ds) (i - 1)
               = Some (scale_entry rng b).
Proof.
  intros Hi. unfold RasterCount in *.
  destruct (lookup_lt_is_Some_2 (bands ds)
              (Z.to_nat (Z.of_nat (length (bands ds)) + i - 1))) as [b Hb]; [lia|].
  exists b. split.
  - rewrite GetRasterBand_lookup by lia. done.
  - rewrite index_wraps by (rewrite length_fmap; lia).
    by rewrite length_fmap, list_lookup_fmap, Hb.
Qed.

Lemma selection_of_accepted ds rng (req : list Z) :
  Forall (index_ok (RasterCount ds)) req ->
  exists sel,
    Forall2 (fun i s => Py.index (scale_entry rng <$> bands ds) (i - 1) = Some s)
      req sel.
Proof.
  induction 1 as [|i req Hi _ [sel IH]]; [by exists []|].
  unfold index_ok in Hi. destruct (decide (1 <= i)).
  - destruct (select_in_range ds rng i) as (b & _ & Hb); [lia|].
    exists (scale_entry rng b :: sel). by constructor.
  - destruct (select_wraps ds rng i) as (b & _ & Hb); [lia|].
    exists (scale_entry rng b :: sel). by constructor.
Qed.

Lemma accepted_has_band ds (req : list Z) :
  req <> [] -> Forall (index_ok (RasterCount ds)) req -> bands ds <> [].
Proof.
  intros Hreq Hall E. destruct req as [|i req]; [done|].
  apply Forall_cons in Hall as [Hi _]. unfold index_ok, RasterCount in Hi.
  rewrite E in Hi. cbn in Hi. lia.
Qed.

(** X5. Indices wrap around: a requested index i with
    -RasterCount < i <= 0 is accepted, is handed on unchanged in the band
    list, and selects the scale entry of band RasterCount + i. *)
Theorem setupOptions_negative_index (ds : Dataset) (fmt ty : string)
  (code : GDALDataType) (rng : list float) (req : list Z) :
  req <> [] ->
  Forall (fun i => - RasterCount ds < i <= RasterCount ds) req ->
  TYPE_DICT !! ty = Some code ->
  exists sel,
    setupOptions ds fmt ty rng (Some req)
    = ([], Ok {| format := fmt; outputType := code;
                 bandList := req; scaleParams := sel |})
    /\ forall k i, req !! k = Some i -> i <= 0 ->
         exists b, GetRasterBand ds (RasterCount ds + i) = Some b
                   /\ sel !! k
                      = Some ([smin (GetStatistics b); smax (GetStatistics b)]
                                ++ rng).
Proof.
  intros Hreq Hall Hty.
  pose proof (accepted_has_band ds req Hreq Hall) as Hne.
  destruct (selection_of_accepted ds rng req Hall) as [sel Hsel].
  exists sel. split.
  - rewrite <- (effective_bands_requested ds req Hreq) at 2.
    apply setupOptions_Ok; [done | by rewrite effective_bands_requested | done].
  - intros k i Hk Hi.
    destruct (Forall2_lookup_l _ _ _ _ _ Hsel Hk) as (s & Hs & Hidx).
    rewrite Forall_lookup in Hall. specialize (Hall k i Hk). cbn in Hall.
    destruct (select_wraps ds rng i) as (b & Hb & Hidx'); [lia|].
    exists b. split; [done|]. by rewrite Hs, <- Hidx, Hidx'.
Qed.

Lemma setupOptions_negative_index_witness :
  exists sel,
    setupOptions Fixture.a_tif "GTiff" "Byte" [0%float; 255%float]
      (Some [-1; 3])
    = ([], Ok {| format := "GTiff"; outputType := GDT_Byte;
                 bandList := [-1; 3]; scaleParams := sel |})
    /\ forall k i, [-1; 3] !! k = Some i -> i <= 0 ->
         exists b, GetRasterBand Fixture.a_tif (RasterCount Fixture.a_tif + i)
                   = Some b
                   /\ sel !! k
                      = Some ([smin (GetStatistics b); smax (GetStatistics b)]
                                ++ [0%float; 255%float]).
Proof.
  apply (setupOptions_negative_index Fixture.a_tif "GTiff" "Byte" GDT_Byte
           [0%float; 255%float] [-1; 3]).
  - discriminate.
  - repeat constructor; vm_compute; discriminate.
  - reflexivity.
Defined.

(** X6. On a dataset with bands and a band selection that is accepted, a
    type name the type table does not have makes option setup raise the
    [KeyError] of that table. *)
Theorem setupOptions_unknown_type_KeyError (ds : Dataset) (fmt ty : string)
  (rng : list float) (bs : option (list Z)) :
  bands ds <> [] ->
  Forall (fun i => - RasterCount ds < i <= RasterCount ds)
    (effective_bands ds bs) ->
  TYPE_DICT !! ty = None ->
  setupOptions ds fmt ty rng bs = ([], Raise (KeyError "TYPE_DICT" ty)).
Proof.
  intros Hne Hall Hty.
  destruct (selection_of_accepted ds rng _ Hall) as [sel Hsel].
  unfold setupOptions. rewrite getScaleParams_Ok, bind_pure by done.
  cbn zeta. rewrite (mapM_select_Ok _ _ _ Hsel), bind_pure.
  unfold getitem. by rewrite Hty.
Qed.

Lemma setupOptions_unknown_type_KeyError_witness :
  setupOptions Fixture.a_tif "GTiff" "byte" [0%float; 255%float] None
  = ([], Raise (KeyError "TYPE_DICT" "byte")).
Proof.
  apply (setupOptions_unknown_type_KeyError Fixture.a_tif "GTiff" "byte"
           [0%float; 255%float] None).
  - discriminate.
  - repeat constructor; vm_compute; discriminate.
  - reflexivity.
Defined.

(** ** Extension resolution: what it opens and how it fails *)

Lemma resolve_driver_named w input fmt :
  Py.lower fmt <> "native" ->
  resolve_driver w input fmt = ([], Ok (GetDriverByName w fmt)).
Proof.
  intros Hfmt. apply String.eqb_neq in Hfmt. unfold resolve_driver.
  by rewrite Hfmt.
Qed.

Lemma resolve_driver_native w input fmt :
  Py.lower fmt = "native" ->
  resolve_driver w input fmt
  = ([EvOpen (Pathlib.str input)],
     match Open w (Pathlib.str input) with
     | Some ds => Ok (Some (GetDriver ds))
     | None => Raise (AttributeError "GetDriver")
     end).
Proof.
  intros Hfmt. apply String.eqb_eq in Hfmt. unfold resolve_driver.
  rewrite Hfmt, gdal_Open_eq, bind_Ok. cbn [negb].
  by destruct (Open w (Pathlib.str input)).
Qed.

(** X7. With a format other than "Native" (in any letter case), extension
    resolution opens no dataset and does not depend on the input path. *)
Theorem get_extension_named_format (w : World) (input input' : Path)
  (fmt : string) :
  Py.lower fmt <> "native" ->
  trace (get_extension w input fmt) = []
  /\ get_extension w input fmt = get_extension w input' fmt.
Proof.
  intros Hfmt. unfold get_extension.
  rewrite !(resolve_driver_named _ _ _ Hfmt), !bind_pure. split; [|done].
  destruct (GetDriverByName w fmt) as [drv|]; [|done].
  destruct (Py.truthy (GetMetadataItem drv DCAP_RASTER)); [|done].
  destruct (if String.eqb fmt "COG" then _ else _) as [e|]; [|done].
  by destruct (negb (Py.nonempty e)).
Qed.

Lemma get_extension_named_format_witness :
  trace (get_extension Fixture.world (Fixture.p "in/a.tif") "PNG") = []
  /\ get_extension Fixture.world (Fixture.p "in/a.tif") "PNG"
     = get_extension Fixture.world (Fixture.p "no/such/file") "PNG".
Proof.
  apply (get_extension_named_format Fixture.world). discriminate.
Defined.

(** X8. A format name, other than "Native", for which the library has no
    driver makes extension resolution fail with the assertion error
    "Invalid Driver ...", without any library call recorded. *)
Theorem get_extension_invalid_driver (w : World) (input : Path) (fmt : string) :
  Py.lower fmt <> "native" ->
  GetDriverByName w fmt = None ->
  get_extension w input fmt
  = ([], Raise (AssertionError
                  "Invalid Driver. Refer GDAL documentation for accepted list of raster drivers")).
Proof.
  intros Hfmt Hdrv. unfold get_extension.
  by rewrite (resolve_driver_named _ _ _ Hfmt), bind_pure, Hdrv.
Qed.

Lemma get_extension_invalid_driver_witness :
  get_extension Fixture.world (Fixture.p "in/a.tif") "GeoTIFF"
  = ([], Raise (AssertionError
                  "Invalid Driver. Refer GDAL documentation for accepted list of raster drivers")).
Proof.
  apply (get_extension_invalid_driver Fixture.world); [discriminate | reflexivity].
Defined.

(** X9. With the format "Native", an input the library cannot open makes
    extension resolution fail on the attribute access of [None], after the
    one call to [gdal.Open]: the test for an invalid driver is not reached. *)
Theorem get_extension_native_unopenable (w : World) (input : Path)
  (fmt : string) :
  Py.lower fmt = "native" ->
  Open w (Pathlib.str input) = None ->
  get_extension w input fmt
  = ([EvOpen (Pathlib.str input)], Raise (AttributeError "GetDriver")).
Proof.
  intros Hfmt Hopen. unfold get_extension.
  by rewrite (resolve_driver_native _ _ _ Hfmt), Hopen.
Qed.

Lemma get_extension_native_unopenable_witness :
  get_extension Fixture.world (Fixture.p "in/meta.xml") "NATIVE"
  = ([EvOpen "in/meta.xml"], Raise (AttributeError "GetDriver")).
Proof.
  apply (get_extension_native_unopenable Fixture.world (Fixture.p "in/meta.xml"));
    reflexivity.
Defined.

(** ** File resolution: errors, shapes and calls *)

(** X10. An input path that does not exist, or an empty input string, makes
    file resolution fail on its first assertion; [main] then fails the same
    way without any library call. *)
Theorem parse_files_missing_input (w : World) (input : string)
  (output : option string) (fmt : string) :
  exists_ w (Pathlib.of_str input) = false \/ input = EmptyString ->
  parse_files w (Some input) output fmt = ([], Raise (AssertionError EmptyString))
  /\ forall args,
       args_input args = Some input -> args_output args = output ->
       args_format args = fmt ->
       main w args = ([], Raise (AssertionError EmptyString)).
Proof.
  intros H.
  assert (Hpf : parse_files w (Some input) output fmt
                = ([], Raise (AssertionError EmptyString))).
  { unfold parse_files. destruct H as [-> | ->]; [done|].
    by rewrite andb_false_r. }
  split; [done|]. intros args Hi Ho Hf.
  unfold main. by rewrite main_unfold, Hi, Ho, Hf, Hpf.
Qed.

Lemma parse_files_missing_input_witness :
  parse_files Fixture.world (Some "no/such/file") None "GTiff"
  = ([], Raise (AssertionError EmptyString))
  /\ parse_files Fixture.world (Some EmptyString) (Some "out") "GTiff"
     = ([], Raise (AssertionError EmptyString)).
Proof.
  split.
  - apply (parse_files_missing_input Fixture.world "no/such/file" None "GTiff").
    by left.
  - apply (parse_files_missing_input Fixture.world EmptyString (Some "out")
             "GTiff").
    by right.
Defined.

(** X11. An input that exists but is neither a directory nor a regular file
    falls through both branches of file resolution: the return statement
    finds [files] unbound. *)
Theorem parse_files_other_entry (w : World) (input : string)
  (output : option string) (fmt : string) :
  input <> EmptyString ->
  path_kind w (Pathlib.of_str input) = Some OtherEntry ->
  parse_files w (Some input) output fmt
  = ([], Raise (UnboundLocalError "files")).
Proof.
  intros Hin Hk. apply String.eqb_neq in Hin.
  unfold parse_files, exists_, is_dir, is_file. by rewrite Hk, Hin.
Qed.

Lemma parse_files_other_entry_witness :
  parse_files Fixture.world (Some "null") None "GTiff"
  = ([], Raise (UnboundLocalError "files")).
Proof.
  apply (parse_files_other_entry Fixture.world "null" None "GTiff");
    [discriminate | reflexivity].
Defined.

(** X12. For a single-file input with an output path given, the one job
    pairs the input with exactly that path, whatever extension the format
    has; the extension is resolved all the same, and its calls are those of
    the resolution. *)
Theorem parse_files_explicit_output (w : World) (input output fmt : string)
  (t : list Event) (ext : string) :
  input <> EmptyString ->
  output <> EmptyString ->
  is_file w (Pathlib.of_str input) = true ->
  Py.lower (Pathlib.suffix (Pathlib.of_str input)) <> ".xml" ->
  get_extension w (Pathlib.of_str input) fmt = (t, Ok ext) ->
  parse_files w (Some input) (Some output) fmt
  = (t, Ok ([Pathlib.of_str input], [Pathlib.of_str output])).
Proof.
  intros Hin Hout Hf Hxml Hext. unfold parse_files.
  rewrite (is_file_exists _ _ Hf), (is_file_not_dir _ _ Hf), Hf, Hext.
  apply String.eqb_neq in Hin, Hxml. rewrite Hin, Hxml.
  destruct output as [|c output]; [done|]. cbn. by rewrite app_nil_r.
Qed.

Lemma parse_files_explicit_output_witness :
  parse_files Fixture.world (Some "in/a.tif") (Some "out/a_cog.tif") "COG"
  = ([], Ok ([Pathlib.of_str "in/a.tif"], [Pathlib.of_str "out/a_cog.tif"])).
Proof.
  apply (parse_files_explicit_output Fixture.world "in/a.tif" "out/a_cog.tif"
           "COG" [] "tif");
    [discriminate | discriminate | reflexivity | discriminate | reflexivity].
Defined.

Lemma parse_dir_shape w outpath fmt entries files outpaths :
  outcome (parse_dir w outpath fmt entries) = Ok (files, outpaths) ->
  files = List.filter (kept w) entries /\ length outpaths = length files.
Proof.
  intros H. destruct (parse_dir_inv _ _ _ _ _ _ H) as [exts Hexts].
  rewrite (parse_dir_Ok _ outpath _ _ _ Hexts) in H. injection H as <- <-.
  split; [done|]. rewrite length_zip_with.
  apply Forall2_length in Hexts. lia.
Qed.

(** X13. Whatever file resolution returns, the two lists have the same
    length, and no resolved input is a directory or has the suffix ".xml" in
    any letter case. *)
Theorem parse_files_invariant (w : World) (input output : option string)
  (fmt : string) (files outpaths : list Path) :
  outcome (parse_files w input output fmt) = Ok (files, outpaths) ->
  length outpaths = length files
  /\ Forall (fun f => is_dir w f = false
                      /\ Py.lower (Pathlib.suffix f) <> ".xml") files.
Proof.
  unfold parse_files. destruct input as [input|]; [|done].
  destruct (negb _); [done|].
  destruct (is_dir w (Pathlib.of_str input)) eqn:Hd.
  - destruct output as [output|]; [|done].
    destruct (negb _); [done|]. intros H.
    apply parse_dir_shape in H as [-> Hlen]. split; [done|].
    apply Forall_forall. intros f Hf. apply list_elem_of_In, filter_In in Hf as [_ Hf].
    unfold kept in Hf. apply negb_true_iff, orb_false_iff in Hf as [Hx Hdir].
    by apply String.eqb_neq in Hx.
  - destruct (is_file w (Pathlib.of_str input)); [|done].
    rewrite outcome_bind.
    destruct (outcome (get_extension w (Pathlib.of_str input) fmt)) as [e|]; [|done].
    destruct (String.eqb _ ".xml") eqn:Hx; [done|]. cbn [negb].
    intros [= <- <-]. split.
    { by destruct (if negb (Py.truthy output) then None
                   else Pathlib.of_str <$> output). }
    apply String.eqb_neq in Hx. by repeat constructor.
Qed.

Lemma parse_files_invariant_witness :
  length [Pathlib.of_str "in/converted.tif"] = length [Pathlib.of_str "in/a.tif"]
  /\ Forall (fun f => is_dir Fixture.world f = false
                      /\ Py.lower (Pathlib.suffix f) <> ".xml")
       [Pathlib.of_str "in/a.tif"].
Proof.
  apply (parse_files_invariant Fixture.world (Some "in/a.tif") None "GTiff").
  reflexivity.
Defined.

Lemma get_extension_named_trace w f fmt :
  Py.lower fmt <> "native" -> trace (get_extension w f fmt) = [].
Proof.
  intros Hfmt. unfold get_extension.
  rewrite (resolve_driver_named _ _ _ Hfmt), bind_pure.
  destruct (GetDriverByName w fmt) as [drv|]; [|done].
  destruct (Py.truthy (GetMetadataItem drv DCAP_RASTER)); [|done].
  destruct (if String.eqb fmt "COG" then _ else _) as [e|]; [|done].
  by destruct (negb (Py.nonempty e)).
Qed.

Lemma parse_dir_named_trace w outpath fmt entries :
  Py.lower fmt <> "native" -> trace (parse_dir w outpath fmt entries) = [].
Proof.
  intros Hfmt. induction entries as [|f rest IH]; [done|].
  rewrite parse_dir_cons. destruct (kept w f); [|done].
  rewrite trace_bind, get_extension_named_trace by done.
  destruct (outcome (get_extension w f fmt)); [|done].
  rewrite trace_bind, IH.
  by destruct (outcome (parse_dir w outpath fmt rest)) as [[fs os]|].
Qed.

Lemma get_extension_named_same w w' f fmt :
  Py.lower fmt <> "native" ->
  (forall n, GetDriverByName w' n = GetDriverByName w n) ->
  get_extension w' f fmt = get_extension w f fmt.
Proof.
  intros Hfmt Hdrv. unfold get_extension.
  by rewrite !(resolve_driver_named _ _ _ Hfmt), Hdrv.
Qed.

Lemma parse_dir_named_same w w' outpath fmt entries :
  Py.lower fmt <> "native" ->
  (forall q, path_kind w' q = path_kind w q) ->
  (forall n, GetDriverByName w' n = GetDriverByName w n) ->
  parse_dir w' outpath fmt entries = parse_dir w outpath fmt entries.
Proof.
  intros Hfmt Hkind Hdrv. induction entries as [|f rest IH]; [done|].
  rewrite !parse_dir_cons.
  assert (kept w' f = kept w f) as -> by (unfold kept, is_dir; by rewrite Hkind).
  by rewrite (get_extension_named_same w w' f fmt Hfmt Hdrv), IH.
Qed.

(** X14. With a format other than "Native", file resolution opens no
    dataset, whatever the input and however it ends: it records no
    [gdal.Open] (and no translate) call, and its result is the same whatever
    [gdal.Open] would answer, in any environment with the same file system
    and the same drivers. *)
Theorem parse_files_named_format_opens_nothing (w : World)
  (input output : option string) (fmt : string) :
  Py.lower fmt <> "native" ->
  trace (parse_files w input output fmt) = []
  /\ forall w',
       (forall q, path_kind w' q = path_kind w q) ->
       (forall q, rglob w' q = rglob w q) ->
       (forall n, GetDriverByName w' n = GetDriverByName w n) ->
       parse_files w' input output fmt = parse_files w input output fmt.
Proof.
  intros Hfmt. split.
  - unfold parse_files. destruct input as [input|]; [|done].
    destruct (negb _); [done|].
    destruct (is_dir w (Pathlib.of_str input)).
    + destruct output as [output|]; [|done].
      destruct (negb _); [done | by apply parse_dir_named_trace].
    + destruct (is_file w (Pathlib.of_str input)); [|done].
      rewrite trace_bind, get_extension_named_trace by done.
      destruct (outcome (get_extension w _ fmt)); [|done].
      by destruct (negb (negb _)).
  - intros w' Hkind Hglob Hdrv. unfold parse_files, exists_, is_dir, is_file.
    destruct input as [input|]; [|done]. rewrite !Hkind.
    destruct (negb _); [done|].
    destruct (path_kind w (Pathlib.of_str input)) as [[]|]; [| |done..].
    + destruct output as [output|]; [|done]. rewrite Hkind.
      destruct (negb _); [done|]. rewrite Hglob.
      by apply parse_dir_named_same.
    + by rewrite (get_extension_named_same w w' _ fmt Hfmt Hdrv).
Qed.

Lemma parse_files_named_format_opens_nothing_witness :
  trace (parse_files Fixture.world (Some "in") (Some "out") "PNG") = []
  /\ outcome (parse_files Radar.world (Some "sar.tif") None "PNG")
     = outcome (parse_files
                  {| path_kind := path_kind Radar.world;
                     rglob := rglob Radar.world;
                     Open := fun _ => None;
                     GetDriverByName := GetDriverByName Radar.world;
                     py_int := py_int Radar.world |}
                  (Some "sar.tif") None "PNG").
Proof.
  split.
  - destruct (parse_files_named_format_opens_nothing Fixture.world
                (Some "in") (Some "out") "PNG") as [Htrace _];
      [discriminate | exact Htrace].
  - destruct (parse_files_named_format_opens_nothing Radar.world
                (Some "sar.tif") None "PNG") as [_ Hsame]; [discriminate|].
    symmetry. apply (f_equal outcome). apply Hsame; reflexivity.
Defined.

Lemma get_extension_native_trace w f fmt e :
  Py.lower fmt = "native" ->
  outcome (get_extension w f fmt) = Ok e ->
  trace (get_extension w f fmt) = [EvOpen (Pathlib.str f)].
Proof.
  intros Hfmt He. apply get_extension_inv in He as (drv & Hd & Hr & He & Hext).
  rewrite (get_extension_Ok _ _ _ _ _ Hd Hr He Hext).
  by rewrite (resolve_driver_native _ _ _ Hfmt).
Qed.

Lemma parse_dir_native_trace w outpath fmt entries files outpaths :
  Py.lower fmt = "native" ->
  outcome (parse_dir w outpath fmt entries) = Ok (files, outpaths) ->
  trace (parse_dir w outpath fmt entries)
  = (fun f => EvOpen (Pathlib.str f)) <$> files.
Proof.
  intros Hfmt. revert files outpaths.
  induction entries as [|f rest IH]; intros files outpaths.
  - by intros [= <- <-].
  - rewrite parse_dir_cons. destruct (kept w f); [|by apply IH].
    rewrite outcome_bind, trace_bind.
    destruct (outcome (get_extension w f fmt)) as [e|] eqn:He; [|done].
    rewrite (get_extension_native_trace _ _ _ _ Hfmt He).
    rewrite outcome_bind, trace_bind.
    destruct (outcome (parse_dir w outpath fmt rest)) as [[fs os]|] eqn:Hr; [|done].
    intros [= <- <-]. rewrite (IH fs os eq_refl). cbn. by rewrite app_nil_r.
Qed.

(** X15. With the format "Native", a file resolution that returns has opened
    every resolved input exactly once, in the order of the list, and made no
    other call. *)
Theorem parse_files_native_opens_each (w : World)
  (input output : option string) (fmt : string) (files outpaths : list Path) :
  Py.lower fmt = "native" ->
  outcome (parse_files w input output fmt) = Ok (files, outpaths) ->
  trace (parse_files w input output fmt)
  = (fun f => EvOpen (Pathlib.str f)) <$> files.
Proof.
  intros Hfmt. unfold parse_files. destruct input as [input|]; [|done].
  destruct (negb _); [done|].
  destruct (is_dir w (Pathlib.of_str input)).
  - destruct output as [output|]; [|done].
    destruct (negb _); [done | by apply parse_dir_native_trace].
  - destruct (is_file w (Pathlib.of_str input)); [|done].
    rewrite outcome_bind, trace_bind.
    destruct (outcome (get_extension w (Pathlib.of_str input) fmt)) as [e|] eqn:He;
      [|done].
    rewrite (get_extension_native_trace _ _ _ _ Hfmt He).
    destruct (negb (negb _)); [done|]. by intros [= <- <-].
Qed.

Lemma parse_files_native_opens_each_witness :
  trace (parse_files Fixture.world (Some "in") (Some "out") "native")
  = [EvOpen "in/a.tif"; EvOpen "in/b.png"; EvOpen "in/sub/c.tif"].
Proof.
  apply (parse_files_native_opens_each Fixture.world (Some "in") (Some "out")
           "native"
           [Fixture.p "in/a.tif"; Fixture.p "in/b.png"; Fixture.p "in/sub/c.tif"]
           [Fixture.p "out/a_converted.tif"; Fixture.p "out/b_converted.png";
            Fixture.p "out/c_converted.tif"]);
    reflexivity.
Defined.

(** ** Output paths of directory jobs *)

Lemma split_no_slash (s : string) : no_slash s = true -> Py.split "/" s = [s].
Proof.
  induction s as [|c s IH]; [done|]. cbn [no_slash Py.split].
  intros [Hc Hs]%andb_true_iff. apply negb_true_iff in Hc.
  by rewrite Hc, (IH Hs).
Qed.

Lemma root_of_no_slash (s : string) :
  no_slash s = true -> Pathlib.root_of s = Relative.
Proof.
  destruct s as [|c s]; [done|]. cbn [no_slash].
  intros [Hc _]%andb_true_iff. apply negb_true_iff in Hc.
  destruct c as [[] [] [] [] [] [] [] []]; try reflexivity; discriminate.
Qed.

Lemma no_slash_app (a b : string) :
  no_slash (a +:+ b) = no_slash a && no_slash b.
Proof.
  induction a as [|c a IH]; [done|].
  change (no_slash (String c a +:+ b))
    with (negb (Ascii.eqb c "/") && no_slash (a +:+ b)).
  rewrite IH. cbn [no_slash]. by rewrite andb_assoc.
Qed.

Lemma length_app_string (a b : string) :
  String.length (a +:+ b) = (String.length a + String.length b)%nat.
Proof.
  induction a as [|c a IH]; [done|].
  change (String.length (String c a +:+ b)) with (S (String.length (a +:+ b))).
  by rewrite IH.
Qed.

Lemma of_str_component (s : string) :
  no_slash s = true -> (2 <= String.length s)%nat ->
  Pathlib.of_str s = {| root := Relative; parts := [s] |}.
Proof.
  intros Hs Hlen. unfold Pathlib.of_str.
  rewrite (root_of_no_slash _ Hs), (split_no_slash _ Hs). cbn.
  assert (Pathlib.keep_part s = true) as ->; [|done].
  unfold Pathlib.keep_part.
  destruct s as [|c [|c' s]]; cbn in Hlen; try lia.
  assert (String.eqb (String c (String c' s)) "." = false) as ->; [|done].
  apply String.eqb_neq. by intros [= _ ?].
Qed.

(** X16. The output of a directory job lies directly in the output
    directory under the name <stem>_converted.<ext>, whatever sub-directory
    the input was found in (stem and extension holding no "/"): the tree of
    the input directory is flattened, and two inputs with the same stem and
    extension get the same output path. *)
Theorem dir_output_flat (outpath f : Path) (ext : string) :
  no_slash (Pathlib.stem f) = true ->
  no_slash ext = true ->
  Pathlib.parent (dir_output outpath f ext) = outpath
  /\ Pathlib.name (dir_output outpath f ext)
     = Pathlib.stem f +:+ "_converted." +:+ ext
  /\ forall f', Pathlib.stem f' = Pathlib.stem f ->
                dir_output outpath f' ext = dir_output outpath f ext.
Proof.
  intros Hstem Hext.
  assert (Hof : Pathlib.of_str (Pathlib.stem f +:+ "_converted." +:+ ext)
                = {| root := Relative;
                     parts := [Pathlib.stem f +:+ "_converted." +:+ ext] |}).
  { apply of_str_component.
    - by rewrite !no_slash_app, Hstem, Hext.
    - rewrite !length_app_string. cbn. lia. }
  unfold dir_output. rewrite Hof. unfold Pathlib.joinpath. cbn [root parts].
  split; [|split].
  - unfold Pathlib.parent. cbn [root parts]. rewrite removelast_last.
    by destruct outpath.
  - unfold Pathlib.name. cbn [parts]. by rewrite last_last.
  - intros f' Hf'. by rewrite Hf', Hof.
Qed.

Lemma dir_output_flat_witness :
  Pathlib.parent (dir_output (Fixture.p "out") (Fixture.p "in/sub/c.tif") "tif")
  = Fixture.p "out"
  /\ Pathlib.name (dir_output (Fixture.p "out") (Fixture.p "in/sub/c.tif") "tif")
     = "c_converted.tif"
  /\ forall f', Pathlib.stem f' = Pathlib.stem (Fixture.p "in/sub/c.tif") ->
                dir_output (Fixture.p "out") f' "tif"
                = dir_output (Fixture.p "out") (Fixture.p "in/sub/c.tif") "tif".
Proof.
  apply (dir_output_flat (Fixture.p "out") (Fixture.p "in/sub/c.tif") "tif");
    reflexivity.
Defined.

(** X17. A directory in which every entry is a sub-directory or a ".xml"
    file is a silent no-op: file resolution returns two empty lists and
    [main], when [int()] accepts every piece of the band string (or there is
    none), ends well without opening or translating anything, whatever the
    format and type names are. *)
Theorem main_nothing_to_convert (w : World) (args : Namespace)
  (input output : string) (bands_out : option (list Z)) :
  args_input args = Some input ->
  args_output args = Some output ->
  input <> EmptyString ->
  is_dir w (Pathlib.of_str input) = true ->
  is_dir w (Pathlib.of_str output) = true ->
  Forall (fun f => kept w f = false) (rglob w (Pathlib.of_str input)) ->
  outcome (parse_bands w (args_bands args)) = Ok bands_out ->
  parse_files w (Some input) (Some output) (args_format args) = ([], Ok ([], []))
  /\ main w args = ([], Ok tt).
Proof.
  intros Hi Ho Hin Hd Hod Hnone Hb.
  assert (Hpf : parse_files w (Some input) (Some output) (args_format args)
                = ([], Ok ([], []))).
  { rewrite parse_files_directory_unfold by done.
    induction Hnone as [|f rest Hf _ IH]; [done|].
    by rewrite parse_dir_cons, Hf. }
  split; [done|].
  unfold main. rewrite main_unfold, Hi, Ho, Hpf, bind_pure.
  rewrite (M_eta (parse_bands _ _)), parse_bands_trace, Hb, bind_pure. done.
Qed.

Lemma main_nothing_to_convert_witness :
  main Fixture.world
    (Fixture.args "out" (Some "out") "NoSuchFormat" "NoSuchType" None None)
  = ([], Ok tt).
Proof.
  apply (main_nothing_to_convert Fixture.world
           (Fixture.args "out" (Some "out") "NoSuchFormat" "NoSuchType"
              None None)
           "out" "out" None);
    try reflexivity; try discriminate.
  constructor.
Defined.

(** ** A directory with a file that does not resolve *)

(** X19. In a directory, one kept entry whose extension does not resolve
    makes the whole file resolution fail: no job list is returned, and
    [main] fails having made [gdal.Open] calls at most, so no file of the
    directory is converted. *)
Theorem parse_files_directory_aborts (w : World) (input output fmt : string)
  (f : Path) :
  input <> EmptyString ->
  is_dir w (Pathlib.of_str input) = true ->
  is_dir w (Pathlib.of_str output) = true ->
  f ∈ rglob w (Pathlib.of_str input) ->
  kept w f = true ->
  (forall e, outcome (get_extension w f fmt) <> Ok e) ->
  (exists e, outcome (parse_files w (Some input) (Some output) fmt) = Raise e)
  /\ (forall args,
        args_input args = Some input -> args_output args = Some output ->
        args_format args = fmt ->
        exists t e, main w args = (t, Raise e) /\ Forall is_open t).
Proof.
  intros Hin Hd Hod Hf Hkept Hfail.
  assert (Hpf : exists e,
             outcome (parse_files w (Some input) (Some output) fmt) = Raise e).
  { rewrite parse_files_directory_unfold by done.
    destruct (outcome (parse_dir w (Pathlib.of_str output) fmt
                         (rglob w (Pathlib.of_str input))))
      as [[files outpaths]|e] eqn:E; [|by exists e].
    apply parse_dir_inv in E as [exts Hexts].
    assert (Hin' : f ∈ List.filter (kept w) (rglob w (Pathlib.of_str input))).
    { apply list_elem_of_In, filter_In. by rewrite <- list_elem_of_In. }
    apply list_elem_of_lookup in Hin' as [k Hk].
    destruct (Forall2_lookup_l _ _ _ _ _ Hexts Hk) as (e & _ & He).
    by destruct (Hfail e). }
  split; [done|]. intros args Hi Ho Hfm. destruct Hpf as [e He].
  exists (trace (parse_files w (Some input) (Some output) fmt)), e.
  split; [|apply parse_files_opens].
  unfold main. rewrite main_unfold, Hi, Ho, Hfm.
  rewrite (M_eta (parse_files w (Some input) (Some output) fmt)) at 1.
  by rewrite He.
Qed.

Lemma parse_files_directory_aborts_witness :
  exists e, outcome (parse_files Fixture.world (Some "in") (Some "out")
                       "ESRI Shapefile") = Raise e.
Proof.
  apply (parse_files_directory_aborts Fixture.world "in" "out" "ESRI Shapefile"
           (Fixture.p "in/b.png")).
  - discriminate.
  - reflexivity.
  - reflexivity.
  - apply list_elem_of_lookup. exists 2%nat. reflexivity.
  - reflexivity.
  - intros e. discriminate.
Defined.

(** ** What every translate call of a run is given *)

Lemma BITRANGE_pair ty rng : BITRANGE !! ty = Some rng -> length rng = 2%nat.
Proof.
  intros H. destruct (decide (ty ∈ type_names)) as [Hin|Hout].
  - unfold type_names in Hin.
    repeat (apply elem_of_cons in Hin as [->|Hin]; [by injection H as <-|]).
    by apply elem_of_nil in Hin.
  - by rewrite (BITRANGE_unknown _ Hout) in H.
Qed.

(** X20. With a format and a type name other than "Native", every translate
    call of a run is given the format name exactly as typed and the type
    code the type table has for the type name. *)
Theorem main_named_format_and_type (w : World) (args : Namespace) :
  Py.lower (args_format args) <> "native" ->
  Py.lower (args_dtype args) <> "native" ->
  Forall
    (on_translate (fun _ o =>
       format o = args_format args
       /\ TYPE_DICT !! args_dtype args = Some (outputType o)))
    (trace (main w args)).
Proof.
  intros Hfmt Hdty. apply main_trace_Forall; [done|]. intros bs jobs.
  apply (main_loop_invariant _ _ _ _
           (fun f d => f = args_format args /\ d = args_dtype args));
    [done| | | |done].
  - by intros f d ds [-> _].
  - by intros f d d' [_ ->].
  - intros f d ds rng o dest [-> ->] _ Ho. cbn.
    by apply setupOptions_inv in Ho as (_ & Hf & Hc & _).
Qed.

Lemma main_named_format_and_type_witness :
  Forall
    (on_translate (fun _ o =>
       format o = "gtiff" /\ TYPE_DICT !! "UInt8" = Some (outputType o)))
    (trace (main Fixture.world
              (Fixture.args "in" (Some "out") "gtiff" "UInt8" None None))).
Proof.
  apply (main_named_format_and_type Fixture.world
           (Fixture.args "in" (Some "out") "gtiff" "UInt8" None None));
    discriminate.
Defined.

(** X21. With no explicit range and a type name of the range table, every
    scale entry of every translate call is the observed minimum and maximum
    of a band of the source dataset followed by the range the table has for
    the type name. *)
Theorem main_table_range (w : World) (args : Namespace) (rng : list float) :
  args_range args = None ->
  BITRANGE !! args_dtype args = Some rng ->
  Forall
    (on_translate (fun ds o =>
       Forall (fun s => exists b,
                 b ∈ bands ds
                 /\ s = [smin (GetStatistics b); smax (GetStatistics b)] ++ rng)
         (scaleParams o)))
    (trace (main w args)).
Proof.
  intros Hr Hrng.
  assert (Hnat : Py.lower (args_dtype args) <> "native").
  { intros Hl. assert (Hin : args_dtype args ∈ type_names).
    { destruct (decide (args_dtype args ∈ type_names)) as [|Hout]; [done|].
      by rewrite (BITRANGE_unknown _ Hout) in Hrng. }
    unfold type_names in Hin.
    repeat (apply elem_of_cons in Hin as [Hin|Hin];
            [rewrite Hin in Hl; discriminate|]).
    by apply elem_of_nil in Hin. }
  apply main_trace_Forall; [done|]. intros bs jobs. rewrite Hr.
  apply (main_loop_invariant _ _ _ _ (fun _ d => d = args_dtype args));
    [done|done| | |done].
  - by intros f d d' ->.
  - intros f d ds rng' o dest -> Hlook Ho. cbn.
    unfold main in *. rewrite Hrng in Hlook. injection Hlook as <-.
    by apply setupOptions_entries in Ho.
Qed.

Lemma main_table_range_witness :
  Forall
    (on_translate (fun ds o =>
       Forall (fun s => exists b,
                 b ∈ bands ds
                 /\ s = [smin (GetStatistics b); smax (GetStatistics b)]
                          ++ [(-32768)%float; 32767%float])
         (scaleParams o)))
    (trace (main Fixture.world
              (Fixture.args "in" (Some "out") "GTiff" "Int16" None None))).
Proof.
  apply (main_table_range Fixture.world
           (Fixture.args "in" (Some "out") "GTiff" "Int16" None None)
           [(-32768)%float; 32767%float]);
    reflexivity.
Defined.

(** X22. Every scale entry of every translate call of every run has exactly
    four numbers: two from the band statistics and the two of the range,
    explicit or from the table. *)
Theorem main_scale_entries_are_quadruples (w : World) (args : Namespace) :
  Forall
    (on_translate (fun _ o =>
       Forall (fun s => length s = 4%nat) (scaleParams o)))
    (trace (main w args)).
Proof.
  apply main_trace_Forall; [done|]. intros bs jobs.
  apply (main_loop_invariant _ _ _ _ (fun _ _ => True)); [done..| |done].
  intros f d ds rng o dest _ Hrng Ho. cbn.
  assert (Hlen : length rng = 2%nat).
  { destruct (args_range args) as [[lo hi]|]; [by subst|].
    by apply BITRANGE_pair in Hrng. }
  apply setupOptions_entries in Ho.
  eapply Forall_impl; [exact Ho|]. intros s (b & _ & ->).
  unfold scale_entry. rewrite length_app. cbn. lia.
Qed.

(** ** The translate calls against the job list *)

Lemma issued_app (t1 t2 : list Event) : issued (t1 ++ t2) = issued t1 ++ issued t2.
Proof. unfold issued, translate_calls. by rewrite omap_app, fmap_app. Qed.

Lemma issued_opens (t : list Event) : Forall is_open t -> issued t = [].
Proof.
  induction 1 as [|ev t Hev _ IH]; [done|].
  destruct ev as [f|d s o]; [|done]. exact IH.
Qed.

(** A bind whose first part only opens files: the calls issued are those of
    the continuation. *)
Lemma issued_bind {A B} (Q : list (string * option Dataset) -> Result B -> Prop)
  (m : M A) (f : A -> M B) :
  Forall is_open (trace m) ->
  (forall e, Q [] (Raise e)) ->
  (forall a, outcome m = Ok a -> Q (issued (trace (f a))) (outcome (f a))) ->
  Q (issued (trace (m ≫= f))) (outcome (m ≫= f)).
Proof.
  intros Hm Hraise Hok. rewrite trace_bind, outcome_bind.
  destruct (outcome m) as [a|e] eqn:E.
  - rewrite issued_app, (issued_opens _ Hm). by apply Hok.
  - rewrite (issued_opens _ Hm). apply Hraise.
Qed.

Lemma main_loop_issued table w range bs jobs fmt dty :
  issued (trace (main_loop table w range bs fmt dty jobs))
    `prefix_of` planned w jobs
  /\ (outcome (main_loop table w range bs fmt dty jobs) = Ok tt ->
      issued (trace (main_loop table w range bs fmt dty jobs)) = planned w jobs).
Proof.
  revert fmt dty. induction jobs as [|[entry out] rest IH]; intros fmt dty.
  { split; [apply prefix_nil | done]. }
  cbn [main_loop].
  set (Q := fun (L : list (string * option Dataset)) (r : Result unit) =>
              L `prefix_of` planned w ((entry, out) :: rest)
              /\ (r = Ok tt -> L = planned w ((entry, out) :: rest))).
  assert (Hraise : forall e, Q [] (Raise e)).
  { intros e. split; [apply prefix_nil | done]. }
  apply (issued_bind Q); [apply gdal_Open_opens | done |].
  intros ds Hds. rewrite gdal_Open_eq in Hds. injection Hds as <-.
  apply (issued_bind Q); [|done|].
  { destruct (String.eqb (Py.lower fmt) "native");
      [destruct (Open w (Pathlib.str entry))|]; constructor. }
  intros fmt' _. apply (issued_bind Q); [|done|].
  { destruct (String.eqb (Py.lower dty) "native");
      [apply get_dtype_opens | constructor]. }
  intros dty' _. apply (issued_bind Q); [|done|].
  { destruct range as [[lo hi]|]; [constructor|].
    rewrite getitem_trace. constructor. }
  intros rng _.
  destruct (Open w (Pathlib.str entry)) as [ds|] eqn:Hopen; [|apply Hraise].
  apply (issued_bind Q); [rewrite setupOptions_trace; constructor | done |].
  intros o _. unfold gdal_Translate, emit. rewrite bind_Ok.
  cbn [trace outcome fst snd]. rewrite (issued_app [_]).
  destruct (IH fmt' dty') as [Hpre Heq].
  unfold Q, planned. cbn [fmap list_fmap fst snd]. rewrite Hopen.
  split.
  - by apply prefix_cons.
  - intros Hok. cbn. f_equal. by apply Heq.
Qed.

(** X23. The translate calls of a run follow the job list: they are issued
    in job order, each to the output path of its job and from the dataset
    its input opens as, and they stop at the first job that fails; a run
    that ends well has translated every job exactly once. *)
Theorem main_translates_jobs_in_order (w : World) (args : Namespace)
  (files outfiles : list Path) :
  outcome (parse_files w (args_input args) (args_output args)
             (args_format args)) = Ok (files, outfiles) ->
  issued (trace (main w args)) `prefix_of` planned w (zip files outfiles)
  /\ (outcome (main w args) = Ok tt ->
      issued (trace (main w args)) = planned w (zip files outfiles)).
Proof.
  intros Hpf. unfold main. rewrite main_unfold.
  set (Q := fun (L : list (string * option Dataset)) (r : Result unit) =>
              L `prefix_of` planned w (zip files outfiles)
              /\ (r = Ok tt -> L = planned w (zip files outfiles))).
  assert (Hraise : forall e, Q [] (Raise e)).
  { intros e. split; [apply prefix_nil | done]. }
  apply (issued_bind Q); [apply parse_files_opens | done |].
  intros jobs Hjobs. rewrite Hpf in Hjobs. injection Hjobs as <-.
  apply (issued_bind Q); [rewrite parse_bands_trace; constructor | done |].
  intros bs _. apply main_loop_issued.
Qed.

Lemma main_translates_jobs_in_order_witness :
  issued (trace (main Fixture.world
                   (Fixture.args "in" (Some "out") "Native" "Native" None None)))
  = [ ("out/a_converted.tif", Some Fixture.a_tif);
      ("out/b_converted.png", Some Fixture.b_png);
      ("out/c_converted.tif", Some Fixture.c_tif) ].
Proof.
  destruct (main_translates_jobs_in_order Fixture.world
              (Fixture.args "in" (Some "out") "Native" "Native" None None)
              [Fixture.p "in/a.tif"; Fixture.p "in/b.png"; Fixture.p "in/sub/c.tif"]
              [Fixture.p "out/a_converted.tif"; Fixture.p "out/b_converted.png";
               Fixture.p "out/c_converted.tif"])
    as [_ Heq]; [reflexivity|].
  rewrite Heq; reflexivity.
Defined.

(** ** The type "Native" *)

Lemma type_name_round_trip (t c : GDALDataType) :
  TYPE_DICT !! GetDataTypeName t = Some c -> c = t.
Proof. destruct t; vm_compute; congruence. Qed.

Lemma type_name_not_native (t : GDALDataType) :
  Py.lower (GetDataTypeName t) <> "native".
Proof. destruct t; discriminate. Qed.

Lemma type_name_unsupported (t : GDALDataType) :
  in_type_table t = false -> BITRANGE !! GetDataTypeName t = None.
Proof. destruct t; (discriminate || reflexivity). Qed.

Lemma get_dtype_eq w entry ds b :
  Open w (Pathlib.str entry) = Some ds ->
  GetRasterBand ds 1 = Some b ->
  get_dtype w entry
  = ([EvOpen (Pathlib.str entry)], Ok (GetDataTypeName (DataType b))).
Proof.
  intros Hds Hb. unfold get_dtype. by rewrite gdal_Open_eq, bind_Ok, Hds, Hb.
Qed.

(** The first iteration of the loop, for a property of the calls. *)
Lemma main_loop_first_job (P : Event -> Prop) table w range bs fmt dty
  entry out rest :
  (forall f, P (EvOpen f)) ->
  (forall ds fmt' dty' rng o,
      Open w (Pathlib.str entry) = Some ds ->
      outcome (if String.eqb (Py.lower dty) "native"
               then get_dtype w entry else mret dty) = Ok dty' ->
      fmt' = (if String.eqb (Py.lower fmt) "native"
              then GetDescription (GetDriver ds) else fmt) ->
      outcome (setupOptions ds fmt' dty' rng bs) = Ok o ->
      P (EvTranslate (Pathlib.str out) ds o)
      /\ Forall P (trace (main_loop table w range bs fmt' dty' rest))) ->
  Forall P (trace (main_loop table w range bs fmt dty ((entry, out) :: rest))).
Proof.
  intros Hopen Hstep. cbn [main_loop].
  rewrite gdal_Open_eq, bind_Ok. cbn [trace fst].
  apply Forall_app. split; [by repeat constructor|].
  apply Forall_trace_bind.
  { destruct (String.eqb (Py.lower fmt) "native");
      [destruct (Open w (Pathlib.str entry))|]; constructor. }
  intros fmt' Hfmt. apply Forall_trace_bind.
  { destruct (String.eqb (Py.lower dty) "native"); [|constructor].
    eapply Forall_impl; [apply get_dtype_opens|]. intros [f|]; [auto|done]. }
  intros dty' Hdty. apply Forall_trace_bind.
  { destruct range as [[lo hi]|]; [constructor|].
    rewrite getitem_trace. constructor. }
  intros rng _.
  destruct (Open w (Pathlib.str entry)) as [ds|] eqn:Hds; [|constructor].
  apply Forall_trace_bind; [rewrite setupOptions_trace; constructor|].
  intros o Ho.
  assert (Hfmt' : fmt' = (if String.eqb (Py.lower fmt) "native"
                          then GetDescription (GetDriver ds) else fmt)).
  { destruct (String.eqb (Py.lower fmt) "native"); by injection Hfmt as <-. }
  destruct (Hstep ds fmt' dty' rng o eq_refl Hdty Hfmt' Ho) as [HP Hrest].
  apply Forall_trace_bind; [by repeat constructor | by intros _ _].
Qed.

(** X24. With the type "Native", the pixel type of band 1 of the first
    job's dataset is resolved once and kept: every translate call of the run
    is given that type as output type, also for the later files. *)
Theorem main_native_type_of_first_job (w : World) (args : Namespace)
  (entry out : Path) (files outfiles : list Path) (ds : Dataset) (b : Band) :
  Py.lower (args_dtype args) = "native" ->
  outcome (parse_files w (args_input args) (args_output args)
             (args_format args)) = Ok (entry :: files, out :: outfiles) ->
  Open w (Pathlib.str entry) = Some ds ->
  GetRasterBand ds 1 = Some b ->
  Forall (on_translate (fun _ o => outputType o = DataType b))
    (trace (main w args)).
Proof.
  intros Hnat Hpf Hds Hb. unfold main. rewrite main_unfold.
  apply Forall_trace_bind.
  { eapply Forall_impl; [apply parse_files_opens|]. by intros [f|]. }
  intros jobs Hjobs. rewrite Hpf in Hjobs. injection Hjobs as <-.
  apply Forall_trace_bind; [rewrite parse_bands_trace; constructor|].
  intros bs _. cbn [fst snd zip zip_with].
  apply main_loop_first_job; [done|].
  intros ds' fmt' dty' rng o Hds' Hdty _ Ho.
  rewrite Hds in Hds'. injection Hds' as <-.
  apply String.eqb_eq in Hnat. rewrite Hnat, (get_dtype_eq _ _ _ _ Hds Hb) in Hdty.
  injection Hdty as <-. split.
  - cbn. apply setupOptions_inv in Ho as (_ & _ & Hc & _).
    by apply type_name_round_trip in Hc.
  - apply (main_loop_invariant _ _ _ _
             (fun _ d => d = GetDataTypeName (DataType b))); [done|done| | |done].
    + intros f d d' -> Hl. by apply type_name_not_native in Hl.
    + intros f d ds' rng' o' dest -> _ Ho'. cbn.
      apply setupOptions_inv in Ho' as (_ & _ & Hc & _).
      by apply type_name_round_trip in Hc.
Qed.

Lemma main_native_type_of_first_job_witness :
  Forall (on_translate (fun _ o => outputType o = GDT_UInt16))
    (trace (main Fixture.world
              (Fixture.args "in" (Some "out") "GTiff" "Native" None None))).
Proof.
  apply (main_native_type_of_first_job Fixture.world
           (Fixture.args "in" (Some "out") "GTiff" "Native" None None)
           (Fixture.p "in/a.tif") (Fixture.p "out/a_converted.tif")
           [Fixture.p "in/b.png"; Fixture.p "in/sub/c.tif"]
           [Fixture.p "out/b_converted.tif"; Fixture.p "out/c_converted.tif"]
           Fixture.a_tif (Fixture.band GDT_UInt16 10%float 200%float));
    reflexivity.
Defined.

(** The byte-valued PNG of the example directory is converted to UInt16, the
    type of the GeoTIFF listed before it. *)
Example native_type_mixed_directory :
  (fun c => (c.1.1, DataType <$> GetRasterBand c.1.2 1, outputType c.2))
    <$> translate_calls
          (trace (main Fixture.world
                    (Fixture.args "in" (Some "out") "GTiff" "Native" None None)))
  = [ ("out/a_converted.tif", Some GDT_UInt16, GDT_UInt16);
      ("out/b_converted.tif", Some GDT_Byte, GDT_UInt16);
      ("out/c_converted.tif", Some GDT_Byte, GDT_UInt16) ].
Proof. reflexivity. Qed.

(** X25. With the type "Native" and no explicit range, when the band string
    is accepted (or absent), a first file whose band 1 has a pixel type
    without an entry in the tables (a complex type, or the unknown type)
    stops the run at the range lookup of that type's name: the file has been
    opened, by the loop and by the type resolution, and nothing is
    translated. *)
Theorem main_native_type_unsupported (w : World) (args : Namespace)
  (entry out : Path) (files outfiles : list Path) (bands_out : option (list Z))
  (ds : Dataset) (b : Band) :
  Py.lower (args_dtype args) = "native" ->
  args_range args = None ->
  outcome (parse_files w (args_input args) (args_output args)
             (args_format args)) = Ok (entry :: files, out :: outfiles) ->
  outcome (parse_bands w (args_bands args)) = Ok bands_out ->
  Open w (Pathlib.str entry) = Some ds ->
  GetRasterBand ds 1 = Some b ->
  in_type_table (DataType b) = false ->
  main w args
  = (trace (parse_files w (args_input args) (args_output args)
              (args_format args))
       ++ [EvOpen (Pathlib.str entry); EvOpen (Pathlib.str entry)],
     Raise (KeyError "BITRANGE" (GetDataTypeName (DataType b)))).
Proof.
  intros Hnat Hr Hpf Hpb Hds Hb Htab. unfold main. rewrite main_unfold.
  rewrite (M_eta (parse_files _ _ _ _)) at 1. rewrite Hpf, bind_Ok.
  rewrite (M_eta (parse_bands _ _)), parse_bands_trace, Hpb, bind_pure, Hr.
  cbn [fst snd zip zip_with main_loop].
  rewrite gdal_Open_eq, bind_Ok, Hds.
  apply String.eqb_eq in Hnat. rewrite Hnat.
  assert (exists fmt',
             (if String.eqb (Py.lower (args_format args)) "native"
              then mret (GetDescription (GetDriver ds))
              else mret (args_format args)) = mret (M := M) fmt')
    as [fmt' ->]
    by (destruct (String.eqb (Py.lower (args_format args)) "native");
        by eexists).
  rewrite bind_ret, (get_dtype_eq _ _ _ _ Hds Hb), bind_Ok.
  unfold getitem. rewrite (type_name_unsupported _ Htab).
  cbn [trace outcome fst snd raise mbind M_bind]. by rewrite app_nil_r.
Qed.

Lemma main_native_type_unsupported_witness :
  main Radar.world
    {| args_input := Some "sar.tif"; args_bands := None; args_output := None;
       args_format := "Native"; args_dtype := "Native"; args_range := None |}
  = ([EvOpen "sar.tif"; EvOpen "sar.tif"; EvOpen "sar.tif"],
     Raise (KeyError "BITRANGE" "CFloat32")).
Proof.
  apply (main_native_type_unsupported Radar.world
           {| args_input := Some "sar.tif"; args_bands := None;
              args_output := None; args_format := "Native";
              args_dtype := "Native"; args_range := None |}
           (Pathlib.of_str "sar.tif") (Pathlib.of_str "converted.tif") [] []
           None Radar.sar
           (mkBand GDT_CFloat32 (mkStats 0%float 1%float 0%float 0%float)));
    reflexivity.
Defined.

(** ** A run with the defaults *)

Lemma bind_Ok_eq {A B} (t t' : list Event) (a : A) (f : A -> M B)
  (r : Result B) :
  f a = (t', r) -> (t, Ok a) ≫= f = (t ++ t', r).
Proof. intros H. by rewrite bind_Ok, H. Qed.

Lemma BITRANGE_has_code ty rng :
  BITRANGE !! ty = Some rng -> is_Some (TYPE_DICT !! ty).
Proof.
  intros H. destruct (decide (ty ∈ type_names)) as [Hin|Hout].
  - unfold type_names in Hin.
    repeat (apply elem_of_cons in Hin as [->|Hin]; [by eexists|]).
    by apply elem_of_nil in Hin.
  - by rewrite (BITRANGE_unknown _ Hout) in H.
Qed.

(** X26. A run with only an input file on the command line, everything else
    at its default ("Native" format and type, no bands, no range, no
    output): when the file opens with a raster driver that declares an
    extension and band 1 has a pixel type of the table, the run opens the
    file three times (extension, loop, type) and issues one translate call:
    to <input-parent>/converted.<ext>, with the description of the file's
    driver as format, the type of band 1 as output type, all bands, and each
    band rescaled from its observed range to the range the table has for
    that type. *)
Theorem main_default_single_file (w : World) (input ext : string)
  (ds : Dataset) (b : Band) (rng : list float) :
  input <> EmptyString ->
  is_file w (Pathlib.of_str input) = true ->
  Py.lower (Pathlib.suffix (Pathlib.of_str input)) <> ".xml" ->
  Open w (Pathlib.str (Pathlib.of_str input)) = Some ds ->
  Py.truthy (GetMetadataItem (GetDriver ds) DCAP_RASTER) = true ->
  GetMetadata_Dict (GetDriver ds) !! "DMD_EXTENSION" = Some ext ->
  ext <> EmptyString ->
  GetRasterBand ds 1 = Some b ->
  BITRANGE !! GetDataTypeName (DataType b) = Some rng ->
  main w {| args_input := Some input; args_bands := None;
            args_output := None; args_format := "Native";
            args_dtype := "Native"; args_range := None |}
  = ([ EvOpen (Pathlib.str (Pathlib.of_str input));
       EvOpen (Pathlib.str (Pathlib.of_str input));
       EvOpen (Pathlib.str (Pathlib.of_str input));
       EvTranslate
         (Pathlib.str (Pathlib.parent (Pathlib.of_str input)
                         // Pathlib.of_str ("converted." +:+ ext)))
         ds
         {| format := GetDescription (GetDriver ds);
            outputType := DataType b;
            bandList := seqZ 1 (RasterCount ds);
            scaleParams := (fun b' => [smin (GetStatistics b');
                                       smax (GetStatistics b')] ++ rng)
                             <$> bands ds |} ],
     Ok tt).
Proof.
  intros Hin Hf Hxml Hds Hr Hext Hne Hb Hrng.
  set (inpath := Pathlib.of_str input) in *.
  assert (Hge : get_extension w inpath "Native"
                = ([EvOpen (Pathlib.str inpath)], Ok ext)).
  { rewrite (get_extension_Ok w inpath "Native" (GetDriver ds) ext).
    - by rewrite resolve_driver_native.
    - by rewrite resolve_driver_native, Hds.
    - done.
    - by destruct ext.
    - done. }
  assert (Hpf : parse_files w (Some input) None "Native"
                = ([EvOpen (Pathlib.str inpath)],
                   Ok ([inpath],
                       [Pathlib.parent inpath
                          // Pathlib.of_str ("converted." +:+ ext)]))).
  { unfold parse_files. fold inpath.
    rewrite (is_file_exists _ _ Hf), (is_file_not_dir _ _ Hf), Hf, Hge.
    apply String.eqb_neq in Hin, Hxml. rewrite Hin, Hxml. reflexivity. }
  assert (Hbands : bands ds <> []).
  { intros E. unfold GetRasterBand in Hb. by rewrite E in Hb. }
  destruct (BITRANGE_has_code _ _ Hrng) as [code Hcode].
  pose proof (type_name_round_trip _ _ Hcode) as ->.
  assert (Hso : setupOptions ds (GetDescription (GetDriver ds))
                  (GetDataTypeName (DataType b)) rng None
                = ([], Ok {| format := GetDescription (GetDriver ds);
                             outputType := DataType b;
                             bandList := seqZ 1 (RasterCount ds);
                             scaleParams := scale_entry rng <$> bands ds |})).
  { assert (Heff : effective_bands ds None = seqZ 1 (RasterCount ds))
      by (cbn; unfold Py.range; f_equal; lia).
    rewrite <- Heff. apply setupOptions_Ok; [done| |done].
    pose proof (all_bands_selected (scale_entry rng <$> bands ds)) as H.
    by rewrite length_fmap in H. }
  unfold main. rewrite main_unfold. cbn [args_input args_output args_format
    args_bands args_dtype args_range].
  rewrite Hpf. apply (bind_Ok_eq [_] [_; _; _]). cbn [parse_bands].
  rewrite bind_ret. cbn [fst snd zip zip_with main_loop].
  rewrite gdal_Open_eq. apply (bind_Ok_eq [_] [_; _]). rewrite Hds.
  change (String.eqb (Py.lower "Native") "native") with true. cbn iota.
  rewrite bind_ret, (get_dtype_eq _ _ _ _ Hds Hb). apply (bind_Ok_eq [_] [_]).
  unfold getitem. rewrite Hrng, bind_ret, Hso, bind_pure.
  reflexivity.
Qed.

Lemma main_default_single_file_witness :
  main Fixture.world
    {| args_input := Some "in/b.png"; args_bands := None;
       args_output := None; args_format := "Native";
       args_dtype := "Native"; args_range := None |}
  = ([ EvOpen "in/b.png"; EvOpen "in/b.png"; EvOpen "in/b.png";
       EvTranslate "in/converted.png" Fixture.b_png
         {| format := "PNG"; outputType := GDT_Byte; bandList := [1];
            scaleParams := [ [1%float; 250%float; 0%float; 255%float] ] |} ],
     Ok tt).
Proof.
  apply (main_default_single_file Fixture.world "in/b.png" "png" Fixture.b_png
           (Fixture.band GDT_Byte 1%float 250%float) [0%float; 255%float]);
    try reflexivity; discriminate.
Defined.

(** ** The explicit range *)

Lemma translate_calls_app (t1 t2 : list Event) :
  translate_calls (t1 ++ t2) = translate_calls t1 ++ translate_calls t2.
Proof. apply omap_app. Qed.

Lemma translate_calls_opens (t : list Event) :
  Forall is_open t -> translate_calls t = [].
Proof.
  induction 1 as [|ev t Hev _ IH]; [done|].
  destruct ev as [f|d s o]; [|done]. exact IH.
Qed.

Lemma index_fmap {A B} (f : A -> B) (l : list A) (i : Z) (y : B) :
  Py.index (f <$> l) i = Some y ->
  exists x, Py.index l i = Some x /\ y = f x.
Proof.
  unfold Py.index. rewrite length_fmap, !list_lookup_fmap.
  destruct (_ && _).
  - intros (x & Hx & ->)%fmap_Some. by exists x.
  - destruct (_ && _); [|done].
    intros (x & Hx & ->)%fmap_Some. by exists x.
Qed.

(** An entry selected from the scale list for the range [lo, hi] is the
    tuple of the band the same index selects. *)
Lemma selected_own_band ds (lo hi : float) (l : list Z) (sel : list (list float)) :
  Forall2 (fun i s => Py.index (scale_entry [lo; hi] <$> bands ds) (i - 1) = Some s)
    l sel ->
  Forall2 (fun i s => exists b,
             Py.index (bands ds) (i - 1) = Some b
             /\ s = [smin (GetStatistics b); smax (GetStatistics b); lo; hi])
    l sel.
Proof.
  intros H. eapply Forall2_impl; [exact H|].
  intros i s (b & Hb & ->)%index_fmap. by exists b.
Qed.

Lemma TYPE_DICT_not_native ty code :
  TYPE_DICT !! ty = Some code -> Py.lower ty <> "native".
Proof.
  intros Hc Hl. assert (Hin : ty ∈ type_names).
  { destruct (decide (ty ∈ type_names)) as [|Hout]; [done|].
    by rewrite (TYPE_DICT_unknown _ Hout) in Hc. }
  unfold type_names in Hin.
  repeat (apply elem_of_cons in Hin as [Hin|Hin];
          [rewrite Hin in Hl; discriminate|]).
  by apply elem_of_nil in Hin.
Qed.

(** C4. When an explicit output range [lo, hi] is supplied on the command
    line:
    - every translate call of the run carries, for each index of its band
      list, the tuple (minimum, maximum, lo, hi) of the band that index
      selects, at the same position, the band list being the requested one or
      all bands;
    - such calls are made: a run that ends well has issued one call per job,
      and the first job, when its dataset opens with bands, the band indices
      are accepted and the type name is one of the type table, whichever it
      is, is translated with exactly these tuples;
    - the type-to-range table is not consulted: the run is the same with any
      other table in its place. *)
Theorem explicit_range_overrides (w : World) (args : Namespace) (lo hi : float) :
  args_range args = Some (lo, hi) ->
  Forall
    (on_translate (fun ds o =>
       Forall2 (fun i s => exists b,
                  Py.index (bands ds) (i - 1) = Some b
                  /\ s = [smin (GetStatistics b); smax (GetStatistics b);
                          lo; hi])
         (bandList o) (scaleParams o)
       /\ forall bs, outcome (parse_bands w (args_bands args)) = Ok bs ->
                     bandList o = effective_bands ds bs))
    (trace (main w args))
  /\ (forall files outfiles,
        outcome (parse_files w (args_input args) (args_output args)
                   (args_format args)) = Ok (files, outfiles) ->
        outcome (main w args) = Ok tt ->
        length (translate_calls (trace (main w args)))
        = length (zip files outfiles))
  /\ (forall entry out files outfiles bs ds code,
        outcome (parse_files w (args_input args) (args_output args)
                   (args_format args))
        = Ok (entry :: files, out :: outfiles) ->
        outcome (parse_bands w (args_bands args)) = Ok bs ->
        Open w (Pathlib.str entry) = Some ds ->
        bands ds <> [] ->
        Forall (fun i => - RasterCount ds < i <= RasterCount ds)
          (effective_bands ds bs) ->
        TYPE_DICT !! args_dtype args = Some code ->
        exists o,
          head (translate_calls (trace (main w args)))
          = Some (Pathlib.str out, ds, o)
          /\ outputType o = code
          /\ bandList o = effective_bands ds bs
          /\ Forall2 (fun i s => exists b,
                        Py.index (bands ds) (i - 1) = Some b
                        /\ s = [smin (GetStatistics b);
                                smax (GetStatistics b); lo; hi])
               (effective_bands ds bs) (scaleParams o))
  /\ forall table, main_with table w args = main w args.
Proof.
  intros Hr. split; [|split; [|split]].
  - unfold main. rewrite main_unfold, Hr.
    apply Forall_trace_bind.
    { eapply Forall_impl; [apply parse_files_opens|]. by intros [f|]. }
    intros jobs _. apply Forall_trace_bind.
    { rewrite parse_bands_trace. constructor. }
    intros bs Hbs.
    apply (main_loop_invariant _ _ _ _ (fun _ _ => True)); [done..| |done].
    intros fmt dty ds rng o dest _ -> Ho. cbn.
    apply setupOptions_inv in Ho as (_ & _ & _ & Hbl & Hsel).
    split; [by apply selected_own_band|].
    intros bs' Hbs'. rewrite Hbs in Hbs'. by injection Hbs' as <-.
  - intros files outfiles Hpf. unfold main. rewrite main_unfold.
    set (Q := fun (L : list (string * option Dataset)) (r : Result unit) =>
                r = Ok tt -> length L = length (zip files outfiles)).
    assert (Hraise : forall e, Q [] (Raise e)) by done.
    assert (HQ : Q (issued (trace
                   (jobs ← parse_files w (args_input args) (args_output args)
                             (args_format args);
                    bands_out ← parse_bands w (args_bands args);
                    main_loop BITRANGE w (args_range args) bands_out
                      (args_format args) (args_dtype args) (zip jobs.1 jobs.2))))
                  (outcome
                   (jobs ← parse_files w (args_input args) (args_output args)
                             (args_format args);
                    bands_out ← parse_bands w (args_bands args);
                    main_loop BITRANGE w (args_range args) bands_out
                      (args_format args) (args_dtype args) (zip jobs.1 jobs.2)))).
    { apply (issued_bind Q); [apply parse_files_opens | done |].
      intros jobs Hjobs. rewrite Hpf in Hjobs. injection Hjobs as <-.
      apply (issued_bind Q); [rewrite parse_bands_trace; constructor | done |].
      intros bs _ Hok. cbn [fst snd].
      destruct (main_loop_issued BITRANGE w (args_range args) bs
                  (zip files outfiles) (args_format args) (args_dtype args))
        as [_ Heq].
      rewrite (Heq Hok). unfold planned. by rewrite length_fmap. }
    intros Hok. specialize (HQ Hok). unfold issued in HQ.
    by rewrite length_fmap in HQ.
  - intros entry out files outfiles bs ds code Hpf Hpb Hds Hne Hall Hcode.
    destruct (selection_of_accepted ds [lo; hi] _ Hall) as [sel Hsel].
    pose proof (TYPE_DICT_not_native _ _ Hcode) as Hnat.
    apply String.eqb_neq in Hnat.
    exists {| format := if String.eqb (Py.lower (args_format args)) "native"
                        then GetDescription (GetDriver ds)
                        else args_format args;
              outputType := code;
              bandList := effective_bands ds bs;
              scaleParams := sel |}.
    split; [|split; [done|split; [done | by apply selected_own_band]]].
    unfold main. rewrite main_unfold, trace_bind, Hpf.
    rewrite translate_calls_app, (translate_calls_opens _ (parse_files_opens _ _ _ _)).
    rewrite trace_bind, Hpb, parse_bands_trace, Hr.
    cbn [fst snd zip zip_with main_loop app].
    rewrite gdal_Open_eq, bind_Ok, Hds, Hnat.
    assert ((if String.eqb (Py.lower (args_format args)) "native"
             then mret (GetDescription (GetDriver ds))
             else mret (args_format args))
            = mret (M := M)
                (if String.eqb (Py.lower (args_format args)) "native"
                 then GetDescription (GetDriver ds) else args_format args))
      as -> by (by destruct (String.eqb (Py.lower (args_format args)) "native")).
    rewrite !bind_ret.
    rewrite (setupOptions_Ok ds _ (args_dtype args) code [lo; hi] bs sel Hne Hsel Hcode).
    rewrite bind_pure. unfold gdal_Translate, emit. rewrite bind_Ok.
    reflexivity.
  - intros table. unfold main. rewrite !main_unfold, Hr.
    apply bind_ext; intros jobs _. apply bind_ext; intros b _.
    apply main_loop_table_irrelevant.
Qed.

(** [-or 0 1000] on a one-band PNG, to be written as UInt16: the one
    translate call carries (1, 250, 0, 1000), not the (0, 65535) of the
    table. *)
Lemma explicit_range_overrides_witness :
  exists o,
    head (translate_calls
            (trace (main Fixture.world
                      (Fixture.args "in/b.png" None "GTiff" "UInt16" None
                         (Some (0%float, 1000%float))))))
    = Some ("in/converted.tif", Fixture.b_png, o)
    /\ outputType o = GDT_UInt16
    /\ bandList o = [1]
    /\ Forall2 (fun i s => exists b,
                  Py.index (bands Fixture.b_png) (i - 1) = Some b
                  /\ s = [smin (GetStatistics b); smax (GetStatistics b);
                          0%float; 1000%float])
         [1] (scaleParams o).
Proof.
  destruct (explicit_range_overrides Fixture.world
              (Fixture.args "in/b.png" None "GTiff" "UInt16" None
                 (Some (0%float, 1000%float)))
              0%float 1000%float eq_refl)
    as (_ & _ & Hcall & _).
  apply (Hcall (Fixture.p "in/b.png") (Fixture.p "in/converted.tif") [] [] None
           Fixture.b_png GDT_UInt16).
  - reflexivity.
  - reflexivity.
  - reflexivity.
  - discriminate.
  - repeat constructor; vm_compute; discriminate.
  - reflexivity.
Defined.
